(** * Hybrid WAF: the threat classification pipeline and its audit store

    A shallow embedding of [WAF/rule_engine.py], [WAF/classifier.py] and
    [WAF/request.py].

    Conventions of the embedding.
    - A Python [str] is a [string] of 8-bit characters.  The text functions
      of the Python library ([str.strip], [str.split], [str.lower],
      [urllib.parse.unquote_plus], [urllib.parse.parse_qs], [re.search]) are
      written out for the ASCII range; a character above 127 is kept as it
      is, is neither white space nor a word character and has no case, and a
      percent escape above [%7F] decodes to the character of that code
      (Python would decode the bytes as UTF-8).
    - [Optional[str]] is [option string]; Python truthiness of such a field
      is [truthy].
    - A Python [dict] is an association list without duplicate keys, in
      insertion order: the code iterates [.items()] and [.values()], so the
      order is observable.
    - Exceptions are values of [exn]; a function that may raise returns its
      state together with [option exn]. *)

From Stdlib Require Import Bool Arith Lia List Ascii String ZArith.
From Stdlib Require Import DecimalString.
Import ListNotations.

Local Open Scope list_scope.
Local Open Scope bool_scope.
Local Open Scope string_scope.

(* ===================================================================== *)
(** ** Python text primitives *)
(* ===================================================================== *)

Module PyStr.

Definition code (c : ascii) : nat := nat_of_ascii c.

Definition in_range (lo hi : nat) (c : ascii) : bool :=
  Nat.leb lo (code c) && Nat.leb (code c) hi.

(** [str.isspace] on one character: TAB LF VT FF CR, FS GS RS US, SPACE. *)
Definition isspace (c : ascii) : bool := in_range 9 13 c || in_range 28 32 c.

Definition isdigit (c : ascii) : bool := in_range 48 57 c.
Definition isupper (c : ascii) : bool := in_range 65 90 c.
Definition islower (c : ascii) : bool := in_range 97 122 c.

(** [\w] of the [re] module, ASCII part: letters, digits, underscore. *)
Definition isword (c : ascii) : bool :=
  isdigit c || isupper c || islower c || Ascii.eqb c "_".

Definition ishex (c : ascii) : bool :=
  isdigit c || in_range 65 70 c || in_range 97 102 c.

Definition hexval (c : ascii) : nat :=
  if isdigit c then code c - 48
  else if in_range 65 70 c then code c - 55
  else code c - 87.

Definition lower_char (c : ascii) : ascii :=
  if isupper c then ascii_of_nat (code c + 32) else c.

(** [s.lower()] *)
Fixpoint lower (s : string) : string :=
  match s with
  | EmptyString => EmptyString
  | String c s' => String (lower_char c) (lower s')
  end.

Fixpoint lstrip (s : string) : string :=
  match s with
  | EmptyString => EmptyString
  | String c s' => if isspace c then lstrip s' else s
  end.

Fixpoint rstrip (s : string) : string :=
  match s with
  | EmptyString => EmptyString
  | String c s' =>
      match rstrip s' with
      | EmptyString => if isspace c then EmptyString else String c EmptyString
      | r => String c r
      end
  end.

(** [s.strip()] *)
Definition strip (s : string) : string := rstrip (lstrip s).

Definition starts_word (s : string) : bool :=
  match s with
  | EmptyString => false
  | String c _ => negb (isspace c)
  end.

(** [s.split()]: the maximal runs of characters that are not white
    space, in order; never an empty word. *)
Fixpoint split_ws (s : string) : list string :=
  match s with
  | EmptyString => []
  | String c s' =>
      if isspace c then split_ws s'
      else if starts_word s' then
        match split_ws s' with
        | w :: ws => String c w :: ws
        | [] => [String c EmptyString]
        end
      else String c EmptyString :: split_ws s'
  end.

(** [sep.join(l)] *)
Fixpoint join (sep : string) (l : list string) : string :=
  match l with
  | [] => EmptyString
  | w :: l' =>
      match l' with
      | [] => w
      | _ :: _ => w ++ sep ++ join sep l'
      end
  end.

(** [s.replace(a, b)] for one-character [a] and [b]. *)
Fixpoint replace_char (a b : ascii) (s : string) : string :=
  match s with
  | EmptyString => EmptyString
  | String c s' =>
      String (if Ascii.eqb c a then b else c) (replace_char a b s')
  end.

(** [s.split(sep)] for a one-character separator: always at least one
    piece, empty pieces kept. *)
Fixpoint split_on (sep : ascii) (s : string) : list string :=
  match s with
  | EmptyString => [EmptyString]
  | String c s' =>
      if Ascii.eqb c sep then EmptyString :: split_on sep s'
      else
        match split_on sep s' with
        | w :: ws => String c w :: ws
        | [] => [String c EmptyString]
        end
  end.

(** [s.split(sep, 1)]: [None] when [sep] does not occur (one piece),
    otherwise the text before and after the first occurrence. *)
Fixpoint split1 (sep : ascii) (s : string) : option (string * string) :=
  match s with
  | EmptyString => None
  | String c s' =>
      if Ascii.eqb c sep then Some (EmptyString, s')
      else
        match split1 sep s' with
        | Some (a, b) => Some (String c a, b)
        | None => None
        end
  end.

(** Python truthiness of an [Optional[str]]. *)
Definition truthy (o : option string) : bool :=
  match o with
  | Some (String _ _) => true
  | _ => false
  end.

End PyStr.

(* ===================================================================== *)
(** ** Dictionaries in insertion order *)
(* ===================================================================== *)

Module Dict.

Definition dict (V : Type) : Type := list (string * V).

Fixpoint get {V} (k : string) (d : dict V) : option V :=
  match d with
  | [] => None
  | (k', v) :: d' => if String.eqb k k' then Some v else get k d'
  end.

(** [k in d] *)
Definition mem {V} (k : string) (d : dict V) : bool :=
  match get k d with Some _ => true | None => false end.

(** [d[k] = v]: an existing key keeps its position, a new key goes last. *)
Fixpoint set {V} (k : string) (v : V) (d : dict V) : dict V :=
  match d with
  | [] => [(k, v)]
  | (k', v') :: d' =>
      if String.eqb k k' then (k', v) :: d' else (k', v') :: set k v d'
  end.

Definition keys {V} (d : dict V) : list string := map fst d.
Definition values {V} (d : dict V) : list V := map snd d.

(** [bool(d)] *)
Definition nonempty {V} (d : dict V) : bool :=
  match d with [] => false | _ :: _ => true end.

End Dict.

(* ===================================================================== *)
(** ** urllib.parse *)
(* ===================================================================== *)

Module Urllib.
Import PyStr.

(** [urllib.parse.unquote]: every [%] followed by two hexadecimal digits
    is replaced by the character of that code; any other [%] stays. *)
Fixpoint unquote (s : string) : string :=
  match s with
  | EmptyString => EmptyString
  | String c s' =>
      if Ascii.eqb c "%" then
        match s' with
        | String h1 (String h2 s'') =>
            if ishex h1 && ishex h2
            then String (ascii_of_nat (16 * hexval h1 + hexval h2)) (unquote s'')
            else String c (unquote s')
        | _ => String c (unquote s')
        end
      else String c (unquote s')
  end.

(** [urllib.parse.unquote_plus] *)
Definition unquote_plus (s : string) : string :=
  unquote (replace_char "+" " " s).

(** [urllib.parse.parse_qsl] with its defaults ([keep_blank_values] and
    [strict_parsing] false, separator [&]): fields without [=] or with an
    empty value are dropped; nothing raises. *)
Definition parse_field (name_value : string) : list (string * string) :=
  match name_value with
  | EmptyString => []
  | _ =>
      match split1 "=" name_value with
      | None => []
      | Some (n, v) =>
          match v with
          | EmptyString => []
          | _ => [(unquote_plus n, unquote_plus v)]
          end
      end
  end.

Definition parse_qsl (qs : string) : list (string * string) :=
  flat_map parse_field (split_on "&" qs).

Definition add_pair (d : Dict.dict (list string)) (nv : string * string)
  : Dict.dict (list string) :=
  match Dict.get (fst nv) d with
  | Some l => Dict.set (fst nv) (l ++ [snd nv])%list d
  | None => Dict.set (fst nv) [snd nv] d
  end.

(** [urllib.parse.parse_qs] *)
Definition parse_qs (qs : string) : Dict.dict (list string) :=
  fold_left add_pair (parse_qsl qs) [].

End Urllib.


(* ===================================================================== *)
(** ** The fragment of the [re] module the signatures use *)
(* ===================================================================== *)

Module Re.
Import PyStr.

Inductive charclass : Type :=
| Lit (c : ascii)                      (* one character *)
| Dot                                  (* [.]: anything but a newline *)
| Space                                (* [\s] *)
| Word                                 (* [\w] *)
| Digit                                (* [\d] *)
| OneOf (neg : bool) (items : list ascii).   (* [[abc]] and [[^abc]] *)

Inductive regex : Type :=
| Eps
| Sym (p : charclass)
| WordB                                (* [\b] *)
| Cat (r1 r2 : regex)
| Alt (r1 r2 : regex)
| Star (r : regex)
| Plus (r : regex)
| Opt (r : regex).

Definition newline : ascii := ascii_of_nat 10.

(** All patterns are compiled with [re.I]: letters compare without case. *)
Definition same_char (x c : ascii) : bool :=
  Ascii.eqb (lower_char x) (lower_char c).

Definition class_match (p : charclass) (x : ascii) : bool :=
  match p with
  | Lit c => same_char x c
  | Dot => negb (Ascii.eqb x newline)
  | Space => isspace x
  | Word => isword x
  | Digit => isdigit x
  | OneOf neg items => xorb neg (existsb (same_char x) items)
  end.

(** *** Reading a pattern *)

Definition is_meta (c : ascii) : bool :=
  existsb (Ascii.eqb c) ["*"; "+"; "?"; ")"; "|"; "{"; "}"; "^"; "$"]%char.

Fixpoint parse_items (s : string) : option (list ascii * string) :=
  match s with
  | EmptyString => None
  | String c s' =>
      if Ascii.eqb c "]" then Some ([], s')
      else if Ascii.eqb c "\" || Ascii.eqb c "-" || Ascii.eqb c "[" then None
      else
        match parse_items s' with
        | Some (l, r) => Some (c :: l, r)
        | None => None
        end
  end.

Definition parse_set (s : string) : option (regex * string) :=
  let '(neg, body) :=
    match s with
    | String c s' => if Ascii.eqb c "^" then (true, s') else (false, s)
    | EmptyString => (false, s)
    end in
  match parse_items body with
  | Some (c :: l, r) => Some (Sym (OneOf neg (c :: l)), r)
  | _ => None
  end.

Definition parse_escape (c : ascii) : option regex :=
  if Ascii.eqb c "b" then Some WordB
  else if Ascii.eqb c "s" then Some (Sym Space)
  else if Ascii.eqb c "w" then Some (Sym Word)
  else if Ascii.eqb c "d" then Some (Sym Digit)
  else if isword c then None
  else Some (Sym (Lit c)).

Definition parse_quant (a : regex) (s : string) : regex * string :=
  match s with
  | String c s' =>
      if Ascii.eqb c "*" then (Star a, s')
      else if Ascii.eqb c "+" then (Plus a, s')
      else if Ascii.eqb c "?" then (Opt a, s')
      else (a, s)
  | EmptyString => (a, s)
  end.

Definition expect_close (res : option (regex * string)) : option (regex * string) :=
  match res with
  | Some (r, String c s') => if Ascii.eqb c ")" then Some (r, s') else None
  | _ => None
  end.

(** The text of a group after its opening parenthesis and the [?:] mark,
    if any; other [(?...)] forms are outside the fragment. *)
Definition group_body (s : string) : option string :=
  match s with
  | String c1 rest =>
      if Ascii.eqb c1 "?" then
        match rest with
        | String c2 s' => if Ascii.eqb c2 ":" then Some s' else None
        | EmptyString => None
        end
      else Some s
  | EmptyString => None
  end.

Fixpoint parse_alt (n : nat) (s : string) {struct n} : option (regex * string) :=
  match n with
  | 0 => None
  | S n' =>
      match parse_seq n' s with
      | Some (r1, String c s') =>
          if Ascii.eqb c "|" then
            match parse_alt n' s' with
            | Some (r2, s'') => Some (Alt r1 r2, s'')
            | None => None
            end
          else Some (r1, String c s')
      | res => res
      end
  end
with parse_seq (n : nat) (s : string) {struct n} : option (regex * string) :=
  match n with
  | 0 => None
  | S n' =>
      match s with
      | EmptyString => Some (Eps, s)
      | String c _ =>
          if Ascii.eqb c "|" || Ascii.eqb c ")" then Some (Eps, s)
          else
            match parse_atom n' s with
            | Some (a, s1) =>
                let '(q, s2) := parse_quant a s1 in
                match parse_seq n' s2 with
                | Some (Eps, s3) => Some (q, s3)
                | Some (r, s3) => Some (Cat q r, s3)
                | None => None
                end
            | None => None
            end
      end
  end
with parse_atom (n : nat) (s : string) {struct n} : option (regex * string) :=
  match n with
  | 0 => None
  | S n' =>
      match s with
      | EmptyString => None
      | String c s' =>
          if Ascii.eqb c "(" then
            (* a capturing group and a [(?:...)] group match alike *)
            match group_body s' with
            | Some inner => expect_close (parse_alt n' inner)
            | None => None
            end
          else if Ascii.eqb c "[" then parse_set s'
          else if Ascii.eqb c "\" then
            match s' with
            | String e s'' =>
                match parse_escape e with
                | Some r => Some (r, s'')
                | None => None
                end
            | EmptyString => None
            end
          else if Ascii.eqb c "." then Some (Sym Dot, s')
          else if is_meta c then None
          else Some (Sym (Lit c), s')
      end
  end.

(** [re.compile(pat, re.I)]; [None] for a pattern outside the fragment. *)
Definition compile (pat : string) : option regex :=
  match parse_alt (3 * String.length pat + 3) pat with
  | Some (r, EmptyString) => Some r
  | _ => None
  end.

(** *** Matching *)

Definition word_before (prev : option ascii) : bool :=
  match prev with Some c => isword c | None => false end.

Definition word_after (s : string) : bool :=
  match s with String c _ => isword c | EmptyString => false end.

(** [matches r prev s k]: some prefix of [s] matches [r] ([prev] is the
    character just before [s], for [\b]) and the continuation [k] accepts
    what follows.  Python's matcher backtracks over all of these splits,
    so it finds a match exactly when this search does. *)
Fixpoint matches (r : regex) (prev : option ascii) (s : string)
         (k : option ascii -> string -> bool) {struct r} : bool :=
  match r with
  | Eps => k prev s
  | Sym p =>
      match s with
      | String c s' => if class_match p c then k (Some c) s' else false
      | EmptyString => false
      end
  | WordB => if xorb (word_before prev) (word_after s) then k prev s else false
  | Cat r1 r2 => matches r1 prev s (fun p' s' => matches r2 p' s' k)
  | Alt r1 r2 => matches r1 prev s k || matches r2 prev s k
  | Star r1 =>
      (fix loop (n : nat) (prev : option ascii) (s : string) {struct n} : bool :=
         k prev s ||
         match n with
         | 0 => false
         | S n' =>
             matches r1 prev s
               (fun p' s' =>
                  if Nat.ltb (String.length s') (String.length s)
                  then loop n' p' s' else false)
         end) (String.length s) prev s
  | Plus r1 =>
      matches r1 prev s
        (fun p0 s0 =>
           (fix loop (n : nat) (prev : option ascii) (s : string) {struct n} : bool :=
              k prev s ||
              match n with
              | 0 => false
              | S n' =>
                  matches r1 prev s
                    (fun p' s' =>
                       if Nat.ltb (String.length s') (String.length s)
                       then loop n' p' s' else false)
              end) (String.length s0) p0 s0)
  | Opt r1 => k prev s || matches r1 prev s k
  end.

Fixpoint search_from (r : regex) (prev : option ascii) (s : string) : bool :=
  matches r prev s (fun _ _ => true) ||
  match s with
  | EmptyString => false
  | String c s' => search_from r (Some c) s'
  end.

(** [bool(pat.search(text))] *)
Definition search (r : regex) (text : string) : bool := search_from r None text.

End Re.

(* ===================================================================== *)
(** ** Python values *)
(* ===================================================================== *)

Module Py.
Import PyStr.

(** The values [json.loads] returns.  A float is carried as the text
    [repr] prints for it; the keys of a decoded object are strings. *)
#[local] Unset Elimination Schemes.
Inductive obj : Type :=
| PNone
| PBool (b : bool)
| PInt (z : Z)
| PFloat (shown : string)
| PStr (s : string)
| PList (l : list obj)
| PDict (d : list (string * obj)).
#[local] Set Elimination Schemes.

Inductive exn : Type :=
| TypeError
| AttributeError.

Definition dquote : ascii := ascii_of_nat 34.

Definition string_of_Z (z : Z) : string := NilZero.string_of_int (Z.to_int z).

Definition hexdigit (n : nat) : ascii :=
  if Nat.ltb n 10 then ascii_of_nat (48 + n) else ascii_of_nat (87 + n).

Fixpoint contains (c : ascii) (s : string) : bool :=
  match s with
  | EmptyString => false
  | String x s' => Ascii.eqb x c || contains c s'
  end.

Definition escape_char (quote c : ascii) : string :=
  if Ascii.eqb c quote || Ascii.eqb c "\" then String "\" (String c EmptyString)
  else if Nat.eqb (code c) 9 then "\t"
  else if Nat.eqb (code c) 10 then "\n"
  else if Nat.eqb (code c) 13 then "\r"
  else if Nat.ltb (code c) 32 || Nat.eqb (code c) 127
       then String "\" (String "x" (String (hexdigit (code c / 16))
                                      (String (hexdigit (code c mod 16)) EmptyString)))
  else String c EmptyString.

Fixpoint escape (quote : ascii) (s : string) : string :=
  match s with
  | EmptyString => EmptyString
  | String c s' => escape_char quote c ++ escape quote s'
  end.

(** [repr] of a [str]: single quotes, unless the text has a single quote
    and no double quote. *)
Definition repr_str (s : string) : string :=
  let quote : ascii :=
    if contains "'" s && negb (contains dquote s) then dquote else "'"%char in
  String quote (escape quote s ++ String quote EmptyString).

Fixpoint repr (o : obj) : string :=
  match o with
  | PNone => "None"
  | PBool true => "True"
  | PBool false => "False"
  | PInt z => string_of_Z z
  | PFloat shown => shown
  | PStr s => repr_str s
  | PList l => "[" ++ join ", " (map repr l) ++ "]"
  | PDict d =>
      "{" ++ join ", " (map (fun kv => let '(k, v) := kv in
                                        repr_str k ++ ": " ++ repr v) d) ++ "}"
  end.

(** [str(o)] *)
Definition str (o : obj) : string :=
  match o with
  | PStr s => s
  | _ => repr o
  end.

(** [len(o)]: a [TypeError] for a value without a length. *)
Definition len (o : obj) : exn + nat :=
  match o with
  | PStr s => inr (String.length s)
  | PList l => inr (List.length l)
  | PDict d => inr (List.length d)
  | _ => inl TypeError
  end.

(** [o.items()]: an [AttributeError] for anything but a [dict]. *)
Definition items (o : obj) : exn + list (string * obj) :=
  match o with
  | PDict d => inr d
  | _ => inl AttributeError
  end.

End Py.

(* ===================================================================== *)
(** ** A reader for JSON texts *)
(* ===================================================================== *)

(** [json.loads] on the texts of objects, arrays, strings, integers and
    the three literals.  Numbers with a fraction or an exponent, [NaN],
    [Infinity] and [\u] escapes are outside this reader (it answers [None]
    for them); the pipeline below takes the decoder as a parameter, and
    this reader instantiates it in the worked examples. *)
Module Json.
Import PyStr.

Definition is_ws (c : ascii) : bool :=
  existsb (Nat.eqb (code c)) [32; 9; 10; 13].

Fixpoint skip_ws (s : string) : string :=
  match s with
  | String c s' => if is_ws c then skip_ws s' else s
  | EmptyString => s
  end.

(** The text after the prefix [p], when [s] starts with [p]. *)
Fixpoint after (p s : string) : option string :=
  match p, s with
  | EmptyString, _ => Some s
  | String a p', String b s' => if Ascii.eqb a b then after p' s' else None
  | String _ _, EmptyString => None
  end.

Definition unescape (e : ascii) : option ascii :=
  if Ascii.eqb e Py.dquote || Ascii.eqb e "\" || Ascii.eqb e "/" then Some e
  else if Ascii.eqb e "b" then Some (ascii_of_nat 8)
  else if Ascii.eqb e "f" then Some (ascii_of_nat 12)
  else if Ascii.eqb e "n" then Some (ascii_of_nat 10)
  else if Ascii.eqb e "r" then Some (ascii_of_nat 13)
  else if Ascii.eqb e "t" then Some (ascii_of_nat 9)
  else None.

(** The characters of a string up to its closing quote (the opening one
    is already consumed); control characters are refused. *)
Fixpoint parse_chars (s : string) : option (string * string) :=
  match s with
  | EmptyString => None
  | String c s' =>
      if Ascii.eqb c Py.dquote then Some (EmptyString, s')
      else if Ascii.eqb c "\" then
        match s' with
        | String e s'' =>
            match unescape e, parse_chars s'' with
            | Some x, Some (t, r) => Some (String x t, r)
            | _, _ => None
            end
        | EmptyString => None
        end
      else if Nat.ltb (code c) 32 then None
      else
        match parse_chars s' with
        | Some (t, r) => Some (String c t, r)
        | None => None
        end
  end.

Fixpoint parse_digits (acc : Z) (s : string) : Z * string :=
  match s with
  | String c s' =>
      if isdigit c then parse_digits (10 * acc + Z.of_nat (code c - 48)) s'
      else (acc, s)
  | EmptyString => (acc, s)
  end.

Definition starts_float_tail (s : string) : bool :=
  match s with
  | String c _ => Ascii.eqb c "." || Ascii.eqb c "e" || Ascii.eqb c "E"
  | EmptyString => false
  end.

(** An optional minus sign, then zero or a numeral without leading zero;
    refused when a fraction or an exponent follows. *)
Definition parse_int (s : string) : option (Z * string) :=
  let '(neg, s1) :=
    match s with
    | String c s' => if Ascii.eqb c "-" then (true, s') else (false, s)
    | EmptyString => (false, s)
    end in
  match s1 with
  | String d s2 =>
      if isdigit d then
        let '(n, rest) :=
          if Ascii.eqb d "0" then (0%Z, s2) else parse_digits 0 s1 in
        if starts_float_tail rest then None
        else Some (if neg then (- n)%Z else n, rest)
      else None
  | EmptyString => None
  end.

Fixpoint parse_value (n : nat) (s : string) {struct n} : option (Py.obj * string) :=
  match n with
  | 0 => None
  | S n' =>
      match s with
      | EmptyString => None
      | String c s' =>
          if Ascii.eqb c "{" then
            match skip_ws s' with
            | String c1 s1 =>
                if Ascii.eqb c1 "}" then Some (Py.PDict [], s1)
                else parse_members n' [] (String c1 s1)
            | EmptyString => None
            end
          else if Ascii.eqb c "[" then
            match skip_ws s' with
            | String c1 s1 =>
                if Ascii.eqb c1 "]" then Some (Py.PList [], s1)
                else parse_elements n' [] (String c1 s1)
            | EmptyString => None
            end
          else if Ascii.eqb c Py.dquote then
            match parse_chars s' with
            | Some (t, r) => Some (Py.PStr t, r)
            | None => None
            end
          else if Ascii.eqb c "-" || isdigit c then
            match parse_int s with
            | Some (z, r) => Some (Py.PInt z, r)
            | None => None
            end
          else
            match after "null" s, after "true" s, after "false" s with
            | Some r, _, _ => Some (Py.PNone, r)
            | _, Some r, _ => Some (Py.PBool true, r)
            | _, _, Some r => Some (Py.PBool false, r)
            | _, _, _ => None
            end
      end
  end
(** [s] starts at the quote of the next key; a repeated key keeps its
    first position and takes the last value, as in a [dict]. *)
with parse_members (n : nat) (acc : Dict.dict Py.obj) (s : string) {struct n}
  : option (Py.obj * string) :=
  match n with
  | 0 => None
  | S n' =>
      match s with
      | String q s0 =>
          if Ascii.eqb q Py.dquote then
            match parse_chars s0 with
            | Some (key, r0) =>
                match skip_ws r0 with
                | String colon r1 =>
                    if Ascii.eqb colon ":" then
                      match parse_value n' (skip_ws r1) with
                      | Some (v, r2) =>
                          let acc' := Dict.set key v acc in
                          match skip_ws r2 with
                          | String d r3 =>
                              if Ascii.eqb d "}" then Some (Py.PDict acc', r3)
                              else if Ascii.eqb d "," then parse_members n' acc' (skip_ws r3)
                              else None
                          | EmptyString => None
                          end
                      | None => None
                      end
                    else None
                | EmptyString => None
                end
            | None => None
            end
          else None
      | EmptyString => None
      end
  end
with parse_elements (n : nat) (acc : list Py.obj) (s : string) {struct n}
  : option (Py.obj * string) :=
  match n with
  | 0 => None
  | S n' =>
      match parse_value n' s with
      | Some (v, r) =>
          match skip_ws r with
          | String d r1 =>
              if Ascii.eqb d "]" then Some (Py.PList (acc ++ [v])%list, r1)
              else if Ascii.eqb d "," then parse_elements n' (acc ++ [v])%list (skip_ws r1)
              else None
          | EmptyString => None
          end
      | None => None
      end
  end.

(** [json.loads(s)]; [None] stands for the [JSONDecodeError]. *)
Definition loads (s : string) : option Py.obj :=
  match parse_value (2 * String.length s + 2) (skip_ws s) with
  | Some (v, r) =>
      match skip_ws r with
      | EmptyString => Some v
      | String _ _ => None
      end
  | None => None
  end.

(** Writes a JSON text with ['] in place of the double quote. *)
Definition text (s : string) : string := replace_char "'" Py.dquote s.

End Json.

(* ===================================================================== *)
(** ** request.py: the Request entity *)
(* ===================================================================== *)

Module request.

(** [datetime.datetime]: a point in time, written as the ISO text under
    which the [sqlite3] module stores it. *)
Definition datetime : Type := string.

Record Request : Type := {
  id : option Z;
  timestamp : option datetime;
  origin : option string;
  host : option string;
  request : option string;
  body : option string;
  method : option string;
  headers : Dict.dict string;
  threats : Dict.dict string
}.

(** [Request()]: every attribute [None], both mappings empty. *)
Definition new : Request :=
  {| id := None; timestamp := None; origin := None; host := None;
     request := None; body := None; method := None;
     headers := []; threats := [] |}.

(** [req.threats = t] *)
Definition set_threats (req : Request) (t : Dict.dict string) : Request :=
  {| id := id req; timestamp := timestamp req; origin := origin req;
     host := host req; request := request req; body := body req;
     method := method req; headers := headers req; threats := t |}.

(** [obj.timestamp = t] *)
Definition set_timestamp (obj : Request) (t : datetime) : Request :=
  {| id := id obj; timestamp := Some t; origin := origin obj;
     host := host obj; request := request obj; body := body obj;
     method := method obj; headers := headers obj; threats := threats obj |}.

(** [obj.id = i] *)
Definition set_id (obj : Request) (i : Z) : Request :=
  {| id := Some i; timestamp := timestamp obj; origin := origin obj;
     host := host obj; request := request obj; body := body obj;
     method := method obj; headers := headers obj; threats := threats obj |}.

(** [Request.to_json], as the mapping that is serialised: the request
    line and the body when they are not empty, then every header (a header
    named like an earlier key overwrites it). *)
Definition to_json (self : Request) : Dict.dict string :=
  let output : Dict.dict string := [] in
  let output :=
    match request self with
    | Some (String c r) => Dict.set "request" (String c r) output
    | _ => output
    end in
  let output :=
    match body self with
    | Some (String c b) => Dict.set "body" (String c b) output
    | _ => output
    end in
  fold_left (fun out hv => Dict.set (fst hv) (snd hv) out) (headers self) output.

End request.

(* ===================================================================== *)
(** ** rule_engine.py: the signature engine *)
(* ===================================================================== *)

Module rule_engine.
Import PyStr.

(** The pattern texts of [SIGNATURES], in the order of the source. *)
Definition SIGNATURE_TEXTS : Dict.dict (list string) :=
  [ ("sqli",
     [ "(?:\bunion\b\s+select|\bselect\b.+\bfrom\b)";
       "(?:\bdrop\b\s+table|\binsert\b\s+into|\bupdate\b\s+\w+\s+set)";
       "(?:'\s*or\s*'\d+'='\d+'|'\s*or\s*1=1|\bor\b\s+1=1)";
       "(?:;\s*--|--\s*)";
       "\b(benchmark|sleep|information_schema)\b" ]);
    ("xss",
     [ "<\s*script";
       "<\s*img\b[^>]*\bonerror\b";
       "javascript:\s*";
       "onload\s*=";
       "alert\s*\(" ]);
    ("cmdi",
     [ "(?:;|&&|\|\||\|)\s*\w+";
       "`[^`]+`";
       "\b(cat|ls|rm|wget|curl|whoami|powershell|cmd\.exe|sh)\b" ]);
    ("path-traversal",
     [ "\.\.\s*/";
       "\.\.\\";
       "(?:/|\\)etc(?:/|\\)passwd";
       "web-inf|boot\.ini" ]) ].

(** A pattern that matches nothing; [compile] falls back to it only for a
    text outside the fragment of [Re], which none of the texts above is
    (lemma [SIGNATURES_compiled]). *)
Definition no_match : Re.regex := Re.Sym (Re.OneOf false []).

Definition compile (pat : string) : Re.regex :=
  match Re.compile pat with
  | Some r => r
  | None => no_match
  end.

Definition SIGNATURES : Dict.dict (list Re.regex) :=
  map (fun entry => (fst entry, map compile (snd entry))) SIGNATURE_TEXTS.

(** The [while k < 5] loop of [_unquote], [fuel] rounds still allowed. *)
Fixpoint unquote_loop (fuel : nat) (prev : string) : string :=
  match fuel with
  | 0 => prev
  | S fuel' =>
      let decoded := Urllib.unquote_plus prev in
      if String.eqb decoded prev then prev else unquote_loop fuel' decoded
  end.

Definition _unquote (text : string) : string := unquote_loop 5 text.

Definition _clean (text : option string) : string :=
  match text with
  | None => EmptyString
  | Some text =>
      let t := _unquote text in
      let t := join " " (split_ws (strip t)) in
      lower t
  end.

Definition scanned_headers : list string :=
  ["Cookie"; "User_Agent"; "Accept_Encoding"; "Accept_Language"].

(** The list [to_scan] of (text, location) pairs. *)
Definition to_scan (req : request.Request) : list (string * string) :=
  ((if truthy (request.request req)
    then [(_clean (request.request req), "Request")] else []) ++
   (if truthy (request.body req)
    then [(_clean (request.body req), "Body")] else []) ++
   flat_map
     (fun header =>
        let value := Dict.get header (request.headers req) in
        if truthy value
        then [(_clean value, replace_char "_" " " header)] else [])
     scanned_headers)%list.

(** One round of [for threat, patterns in SIGNATURES.items()]. *)
Definition match_category (text location : string) (threats : Dict.dict string)
           (entry : string * list Re.regex) : Dict.dict string :=
  let '(threat, patterns) := entry in
  if Dict.mem threat threats then threats
  else if existsb (fun pat => Re.search pat text) patterns
       then Dict.set threat location threats
       else threats.

(** One round of [for text, location in to_scan]. *)
Definition match_field (threats : Dict.dict string) (tl : string * string)
  : Dict.dict string :=
  fold_left (match_category (fst tl) (snd tl)) SIGNATURES threats.

Definition signature_matching (req : request.Request) : Dict.dict string :=
  fold_left match_field (to_scan req) [].

(** [o or ''] *)
Definition or_empty (o : option string) : string :=
  match o with
  | Some s => s
  | None => EmptyString
  end.

Definition query_params (req : request.Request) : Dict.dict (list string) :=
  Urllib.parse_qs (_clean (Some (or_empty (request.request req)))).

Definition too_long (v : string) : bool := Nat.ltb 100 (String.length v).

(** The two nested loops that check the lengths, with their [break]s. *)
Fixpoint check_lengths (vlists : list (list string)) (location : string)
         (threats : Dict.dict string) : Dict.dict string :=
  match vlists with
  | [] => threats
  | vlist :: rest =>
      let threats :=
        if existsb too_long vlist
        then Dict.set "parameter-tampering" location threats
        else threats in
      if Dict.mem "parameter-tampering" threats then threats
      else check_lengths rest location threats
  end.

Section WithJson.

(** [json.loads]; [None] when it raises. *)
Variable json_loads : string -> option Py.obj.

(** The body parameters decoded from JSON: [{k: [str(v)]}] for an object,
    nothing when decoding fails or the value has no [items]. *)
Definition json_params (raw : string) : Dict.dict (list string) :=
  match json_loads raw with
  | Some obj =>
      match Py.items obj with
      | inr kvs =>
          fold_left (fun params kv => Dict.set (fst kv) [Py.str (snd kv)] params)
                    kvs []
      | inl _ => []
      end
  | None => []
  end.

Definition body_params (req : request.Request) : Dict.dict (list string) :=
  match request.body req with
  | Some (String c b) =>
      let bclean := _clean (request.body req) in
      let body_params := Urllib.parse_qs bclean in
      if negb (Dict.nonempty body_params)
      then json_params (String c b)
      else body_params
  | _ => []
  end.

Definition scan_request (req : request.Request) : Dict.dict string :=
  let threats := signature_matching req in
  let query_params := query_params req in
  let body_params := body_params req in
  check_lengths (Dict.values query_params ++ Dict.values body_params)%list
                (if Dict.nonempty body_params then "Body" else "Request")
                threats.

End WithJson.

End rule_engine.

(* ===================================================================== *)
(** ** classifier.py: signatures first, then the two models *)
(* ===================================================================== *)

Module classifier.
Import PyStr.

(** A model loaded by [joblib]: [predict] answers one label per input, or
    raises ([None]).  [self.clf] and [self.pt_clf] are [None] when loading
    failed. *)
Record ThreatClassifier : Type := {
  clf : option (list string -> option (list string));
  pt_clf : option (list (list nat) -> option (list string))
}.

(** The calls made to the models, in order. *)
Inductive call : Type :=
| clf_predict (parameters : list string)
| pt_clf_predict (length_features : list (list nat)).

(** What a call of [classify_request] leaves behind: the request as it
    was mutated, the calls made to the models, and the exception that
    reached the caller, if any. *)
Record outcome : Type := {
  out_req : request.Request;
  out_calls : list call;
  out_exn : option Py.exn
}.

(** The [for _ in range(5)] loop of [_clean_text]. *)
Fixpoint decode_rounds (rounds : nat) (prev : string) : string :=
  match rounds with
  | 0 => prev
  | S rounds' =>
      let decoded := Urllib.unquote_plus prev in
      if String.eqb decoded prev then prev else decode_rounds rounds' decoded
  end.

Definition _clean_text (text : option string) : string :=
  match text with
  | None => EmptyString
  | Some text =>
      let prev := decode_rounds 5 text in
      lower (join " " (split_ws (strip prev)))
  end.

Definition _is_valid (parameter : option string) : bool :=
  match parameter with
  | None => false
  | Some s => negb (String.eqb s EmptyString)
  end.

Definition field_feature (value : option string) (location : string)
  : list (string * string) :=
  if _is_valid value then [(_clean_text value, location)] else [].

Definition header_feature (req : request.Request) (header location : string)
  : list (string * string) :=
  if Dict.mem header (request.headers req)
     && _is_valid (Dict.get header (request.headers req))
  then [(_clean_text (Dict.get header (request.headers req)), location)]
  else [].

(** [parameters] and [locations], kept side by side. *)
Definition text_features (req : request.Request) : list (string * string) :=
  (field_feature (request.request req) "Request" ++
   field_feature (request.body req) "Body" ++
   header_feature req "Cookie" "Cookie" ++
   header_feature req "User_Agent" "User Agent" ++
   header_feature req "Accept_Encoding" "Accept Encoding" ++
   header_feature req "Accept_Language" "Accept Language")%list.

(** [for idx, pred in enumerate(predictions)]: a label other than
    ['valid'] is written at [locations[idx]]; an index out of range raises
    inside the [try], which ends the loop and keeps what was written. *)
Fixpoint record_predictions (idx : nat) (predictions locations : list string)
         (threats : Dict.dict string) : Dict.dict string :=
  match predictions with
  | [] => threats
  | pred :: rest =>
      if String.eqb pred "valid"
      then record_predictions (S idx) rest locations threats
      else
        match nth_error locations idx with
        | Some location =>
            record_predictions (S idx) rest locations (Dict.set pred location threats)
        | None => threats
        end
  end.

(** The text classification block. *)
Definition text_classification (self : ThreatClassifier)
           (parameters locations : list string) (threats : Dict.dict string)
  : Dict.dict string * list call :=
  match parameters, clf self with
  | _ :: _, Some predict =>
      match predict parameters with
      | Some predictions =>
          (record_predictions 0 predictions locations threats,
           [clf_predict parameters])
      | None => (threats, [clf_predict parameters])
      end
  | _, _ => (threats, [])
  end.

(** The parameter tampering block. *)
Definition tampering_classification (self : ThreatClassifier)
           (length_features : list (list nat)) (locations_len : list string)
           (threats : Dict.dict string)
  : Dict.dict string * list call :=
  match length_features, pt_clf self with
  | _ :: _, Some predict =>
      match predict length_features with
      | Some pt_preds =>
          (record_predictions 0 pt_preds locations_len threats,
           [pt_clf_predict length_features])
      | None => (threats, [pt_clf_predict length_features])
      end
  | _, _ => (threats, [])
  end.

Definition request_parameters (req : request.Request) : Dict.dict (list string) :=
  if _is_valid (request.request req)
  then Urllib.parse_qs (_clean_text (request.request req))
  else [].

(** The result of [parse_qs] as a Python value. *)
Definition of_params (d : Dict.dict (list string)) : Py.obj :=
  Py.PDict (map (fun kv => (fst kv, Py.PList (map Py.PStr (snd kv)))) d).

Definition bind {A B : Type} (m : Py.exn + A) (f : A -> Py.exn + B) : Py.exn + B :=
  match m with
  | inl e => inl e
  | inr a => f a
  end.

Fixpoint for_each {A B : Type} (f : A -> Py.exn + list B) (l : list A)
  : Py.exn + list B :=
  match l with
  | [] => inr []
  | a :: l' =>
      bind (f a) (fun bs => bind (for_each f l') (fun rest => inr (bs ++ rest)%list))
  end.

Definition request_lengths (request_parameters : Dict.dict (list string))
  : list (list nat * string) :=
  flat_map (fun vals => map (fun elem => ([String.length elem], "Request")) vals)
           (Dict.values request_parameters).

(** The body of [for name, value in body_parameters.items()]. *)
Definition value_lengths (value : Py.obj) : Py.exn + list (list nat * string) :=
  match value with
  | Py.PList elems =>
      for_each (fun elem => bind (Py.len elem) (fun n => inr [([n], "Body")])) elems
  | _ => bind (Py.len value) (fun n => inr [([n], "Body")])
  end.

Definition body_lengths (body_parameters : Py.obj)
  : Py.exn + list (list nat * string) :=
  bind (Py.items body_parameters)
       (for_each (fun kv => value_lengths (snd kv))).

Section WithJson.

Variable json_loads : string -> option Py.obj.

Definition body_parameters (req : request.Request) : Py.obj :=
  if _is_valid (request.body req) then
    let body_parameters := Urllib.parse_qs (_clean_text (request.body req)) in
    if negb (Dict.nonempty body_parameters) then
      match json_loads (_clean_text (request.body req)) with
      | Some decoded => decoded
      | None => Py.PDict []
      end
    else of_params body_parameters
  else Py.PDict [].

(** [length_features] and [locations_len], kept side by side; the loop
    over the body parameters stands outside every [try]. *)
Definition length_features (req : request.Request)
  : Py.exn + list (list nat * string) :=
  bind (body_lengths (body_parameters req))
       (fun from_body => inr (request_lengths (request_parameters req) ++ from_body)%list).

(** [classify_request]; the [isinstance] test is the type of [req]. *)
Definition classify_request (self : ThreatClassifier) (req : request.Request)
  : outcome :=
  let signature_threats := rule_engine.scan_request json_loads req in
  if Dict.nonempty signature_threats then
    {| out_req := request.set_threats req signature_threats;
       out_calls := []; out_exn := None |}
  else
    let features := text_features req in
    let '(threats, calls) :=
      text_classification self (map fst features) (map snd features) [] in
    match length_features req with
    | inl e =>
        {| out_req := request.set_threats req threats;
           out_calls := calls; out_exn := Some e |}
    | inr lengths =>
        let '(threats, pt_calls) :=
          tampering_classification self (map fst lengths) (map snd lengths) threats in
        let threats :=
          if negb (Dict.nonempty threats) then Dict.set "valid" EmptyString threats
          else threats in
        {| out_req := request.set_threats req threats;
           out_calls := (calls ++ pt_calls)%list; out_exn := None |}
    end.

End WithJson.

End classifier.

(* ===================================================================== *)
(** ** request.py: the audit store *)
(* ===================================================================== *)

Module DBController.

(** Modelled from the spec: the schema of the tables [logs] and [threats],
    which is created outside this repository.  [logs] is keyed by an
    identifier assigned on insertion and holds the timestamp, origin, host
    and method as given; [threats] holds one row per request identifier,
    threat type and location. *)
Record log_row : Type := {
  log_id : Z;
  log_timestamp : option request.datetime;
  log_origin : option string;
  log_host : option string;
  log_method : option string
}.

Record threat_row : Type := {
  threat_log_id : Z;
  threat_type : string;
  location : string
}.

(** The database behind [self.conn] and the directory [requests_log/]. *)
Record store : Type := {
  logs : list log_row;
  threats : list threat_row;
  requests_log : Dict.dict (Dict.dict string)
}.

Definition empty : store := {| logs := []; threats := []; requests_log := [] |}.

(** Modelled from the spec: the identifier the database assigns to a new
    row of [logs] ([cursor.lastrowid]), one more than the largest in use. *)
Definition lastrowid (rows : list log_row) : Z :=
  Z.succ (fold_right (fun row m => Z.max (log_id row) m) 0%Z rows).

(** [save], with [now] for [datetime.datetime.now()]: the store after the
    commit and the request as mutated; the [isinstance] test is the type
    of [obj]. *)
Definition save (self : store) (now : request.datetime) (obj : request.Request)
  : store * request.Request :=
  let obj := request.set_timestamp obj now in
  let row := {| log_id := lastrowid (logs self);
                log_timestamp := request.timestamp obj;
                log_origin := request.origin obj;
                log_host := request.host obj;
                log_method := request.method obj |} in
  let logs' := (logs self ++ [row])%list in
  let obj := request.set_id obj (log_id row) in
  let file_name := Py.string_of_Z (log_id row) ++ ".json" in
  let file_path := "requests_log/" ++ file_name in
  let files' := Dict.set file_path (request.to_json obj) (requests_log self) in
  let threats' :=
    fold_left
      (fun rows tl =>
         (rows ++ [{| threat_log_id := log_id row;
                      threat_type := fst tl; location := snd tl |}])%list)
      (request.threats obj) (threats self) in
  ({| logs := logs'; threats := threats'; requests_log := files' |}, obj).

(** The rows of [logs AS l JOIN threats AS t ON l.id = t.log_id WHERE l.id = ?]. *)
Definition joined (self : store) (id : Z) : list (log_row * threat_row) :=
  flat_map
    (fun l =>
       map (fun t => (l, t))
           (filter (fun t => Z.eqb (log_id l) (threat_log_id t)) (threats self)))
    (filter (fun l => Z.eqb (log_id l) id) (logs self)).

(** The dictionary [log] of [read_request], when it is filled. *)
Record metadata : Type := {
  meta_timestamp : option request.datetime;
  meta_origin : option string;
  meta_host : option string;
  meta_method : option string
}.

Definition _create_single_entry (row : log_row * threat_row) : string * string :=
  (threat_type (snd row), location (snd row)).

(** [None] for the empty dictionary returned for an unknown identifier. *)
Definition read_request (self : store) (id : Z)
  : option metadata * list (string * string) :=
  let results := joined self id in
  let log :=
    match results with
    | first :: _ =>
        Some {| meta_timestamp := log_timestamp (fst first);
                meta_origin := log_origin (fst first);
                meta_host := log_host (fst first);
                meta_method := log_method (fst first) |}
    | [] => None
    end in
  (log, map _create_single_entry results).

(** Every threat row belongs to a stored request. *)
Definition references_ok (self : store) : bool :=
  forallb
    (fun t => existsb (fun l => Z.eqb (log_id l) (threat_log_id t)) (logs self))
    (threats self).

(** The rows of [logs AS l JOIN threats AS t ON l.id = t.log_id]. *)
Definition joined_all (self : store) : list (log_row * threat_row) :=
  flat_map
    (fun l =>
       map (fun t => (l, t))
           (filter (fun t => Z.eqb (log_id l) (threat_log_id t)) (threats self)))
    (logs self).

(** One record of the frame [read_all] returns: the columns of the joined
    row and the link to its review page.  Modelled from the spec: the
    relation [threats] has no identifier column of its own, so
    [entry['id']] is the identifier of the request. *)
Record entry : Type := {
  entry_log : log_row;
  entry_threat : threat_row;
  Link : string
}.

Definition _create_entry (row : log_row * threat_row) : entry :=
  {| entry_log := fst row;
     entry_threat := snd row;
     Link := "[Review](http://127.0.0.1:8050/review/"
             ++ Py.string_of_Z (log_id (fst row)) ++ ")" |}.

(** [read_all], as the list of records the frame is built from. *)
Definition read_all (self : store) : list entry :=
  map _create_entry (joined_all self).

End DBController.

(* ===================================================================== *)
(** ** Vocabulary of the statements *)
(* ===================================================================== *)

(** The parameter values whose lengths the signature engine checks: those
    of the query, then those of the body. *)
Definition param_values (json_loads : string -> option Py.obj)
           (req : request.Request) : list string :=
  List.concat (Dict.values (rule_engine.query_params req) ++
          Dict.values (rule_engine.body_params json_loads req))%list.

(** The labels the two models answered for a request. *)
Definition clf_labels (self : classifier.ThreatClassifier) (req : request.Request)
  : list string :=
  match classifier.clf self with
  | Some predict =>
      match predict (map fst (classifier.text_features req)) with
      | Some predictions => predictions
      | None => []
      end
  | None => []
  end.

Definition pt_clf_labels (json_loads : string -> option Py.obj)
           (self : classifier.ThreatClassifier) (req : request.Request)
  : list string :=
  match classifier.pt_clf self, classifier.length_features json_loads req with
  | Some predict, inr lengths =>
      match predict (map fst lengths) with
      | Some pt_preds => pt_preds
      | None => []
      end
  | _, _ => []
  end.

(** A threat map made of labels of the models, none of them ['valid']. *)
Definition ml_derived (json_loads : string -> option Py.obj)
           (self : classifier.ThreatClassifier) (req : request.Request)
           (threats : Dict.dict string) : Prop :=
  forall label, In label (Dict.keys threats) ->
    label <> "valid" /\
    In label (clf_labels self req ++ pt_clf_labels json_loads self req)%list.

(** A text on which the decoding loop of the normaliser reaches a fixed
    point within its five rounds ([None] is normalised without decoding). *)
Definition stabilizes (text : option string) : Prop :=
  match text with
  | None => True
  | Some x =>
      Urllib.unquote_plus (rule_engine._unquote x) = rule_engine._unquote x
  end.

(** A percent escape stands at the head of [s]. *)
Definition escape_at (s : string) : bool :=
  match s with
  | String c (String h1 (String h2 _)) =>
      Ascii.eqb c "%" && (PyStr.ishex h1 && PyStr.ishex h2)
  | _ => false
  end.

(** No percent escape anywhere in [s]. *)
Fixpoint escape_free (s : string) : bool :=
  match s with
  | EmptyString => true
  | String c s' => negb (escape_at s) && escape_free s'
  end.

Fixpoint all_chars (P : ascii -> bool) (s : string) : bool :=
  match s with
  | EmptyString => true
  | String c s' => P c && all_chars P s'
  end.

Definition not_plus (c : ascii) : bool := negb (Ascii.eqb c "+").
Definition not_space (c : ascii) : bool := negb (PyStr.isspace c).

(** A word of [split]: not empty, without white space. *)
Definition is_word (w : string) : bool :=
  PyStr.starts_word w && all_chars not_space w.

(** The white-space step of the normaliser. *)
Definition collapse (s : string) : string :=
  PyStr.join " " (PyStr.split_ws (PyStr.strip s)).

(** The candidate lengths each of the two body-parameter extractions
    produces: the signature engine measures the values of [body_params],
    the model path measures what [body_lengths] walks over. *)
Definition signature_body_lengths (json_loads : string -> option Py.obj)
           (req : request.Request) : list nat :=
  map String.length (List.concat (Dict.values (rule_engine.body_params json_loads req))).

Definition model_body_lengths (json_loads : string -> option Py.obj)
           (req : request.Request) : Py.exn + list nat :=
  classifier.bind
    (classifier.body_lengths (classifier.body_parameters json_loads req))
    (fun features => inr (List.concat (map fst features))).

(** A decoded JSON object all of whose values are strings. *)
Definition string_object (d : Dict.dict string) : Py.obj :=
  Py.PDict (map (fun kv => (fst kv, Py.PStr (snd kv))) d).

(** The bodies on which the two extractions take the same road: no body,
    form-encoded parameters, or a JSON stage whose decoding of the raw and
    of the normalised text both fail or both give the same object of
    strings. *)
Definition same_road (json_loads : string -> option Py.obj)
           (req : request.Request) : Prop :=
  PyStr.truthy (request.body req) = false
  \/ Urllib.parse_qs (rule_engine._clean (request.body req)) <> []
  \/ (exists raw, request.body req = Some raw /\
        json_loads raw = None /\
        json_loads (rule_engine._clean (request.body req)) = None)
  \/ (exists raw d, request.body req = Some raw /\
        NoDup (Dict.keys d) /\
        json_loads raw = Some (string_object d) /\
        json_loads (rule_engine._clean (request.body req)) = Some (string_object d)).

(** Requests used in the worked examples. *)
Definition with_request (line : string) : request.Request :=
  {| request.id := None; request.timestamp := None; request.origin := None;
     request.host := None; request.request := Some line; request.body := None;
     request.method := None; request.headers := []; request.threats := [] |}.

Definition with_body (text : string) : request.Request :=
  {| request.id := None; request.timestamp := None; request.origin := None;
     request.host := None; request.request := None; request.body := Some text;
     request.method := None; request.headers := []; request.threats := [] |}.

Definition with_request_and_body (line text : string) : request.Request :=
  {| request.id := None; request.timestamp := None; request.origin := None;
     request.host := None; request.request := Some line; request.body := Some text;
     request.method := None; request.headers := []; request.threats := [] |}.

Fixpoint repeat_char (c : ascii) (n : nat) : string :=
  match n with
  | 0 => EmptyString
  | S n' => String c (repeat_char c n')
  end.

(** Models that answer ['valid'] for every input. *)
Definition always_valid : classifier.ThreatClassifier :=
  {| classifier.clf := Some (fun l => Some (map (fun _ => "valid") l));
     classifier.pt_clf := Some (fun l => Some (map (fun _ => "valid") l)) |}.

(** The labels and the locations the signature engine can write. *)
Definition signature_labels : list string :=
  ["sqli"; "xss"; "cmdi"; "path-traversal"; "parameter-tampering"].

Definition known_locations : list string :=
  ["Request"; "Body"; "Cookie"; "User Agent"; "Accept Encoding"; "Accept Language"].

(** A scanned text on which one of the patterns matches. *)
Definition hits (patterns : list Re.regex) (tl : string * string) : bool :=
  existsb (fun pat => Re.search pat (fst tl)) patterns.

(** The location of the first scanned field on which a pattern matches. *)
Definition first_match (patterns : list Re.regex) (fields : list (string * string))
  : option string :=
  option_map snd (find (hits patterns) fields).

(** The index of the last occurrence of [p] in [l]. *)
Fixpoint last_index (p : string) (l : list string) : option nat :=
  match l with
  | [] => None
  | x :: l' =>
      match last_index p l' with
      | Some i => Some (S i)
      | None => if String.eqb x p then Some 0 else None
      end
  end.

(** A classifier whose two models failed to load. *)
Definition no_models : classifier.ThreatClassifier :=
  {| classifier.clf := None; classifier.pt_clf := None |}.

(** The text model is missing, or raises on the texts of this request. *)
Definition clf_silent (self : classifier.ThreatClassifier) (req : request.Request)
  : Prop :=
  match classifier.clf self with
  | Some predict => predict (map fst (classifier.text_features req)) = None
  | None => True
  end.

(** The tampering model is missing, or raises whatever it is given. *)
Definition pt_clf_silent (self : classifier.ThreatClassifier) : Prop :=
  match classifier.pt_clf self with
  | Some predict => forall length_features, predict length_features = None
  | None => True
  end.

(** A request without request line, body and scanned headers. *)
Definition blank (req : request.Request) : bool :=
  negb (PyStr.truthy (request.request req))
  && negb (PyStr.truthy (request.body req))
  && forallb (fun header =>
                negb (PyStr.truthy (Dict.get header (request.headers req))))
             rule_engine.scanned_headers.

(** The threat rows [save] writes for a request under the identifier [id]. *)
Definition threat_rows (id : Z) (threats : Dict.dict string)
  : list DBController.threat_row :=
  map (fun tl => {| DBController.threat_log_id := id;
                    DBController.threat_type := fst tl;
                    DBController.location := snd tl |}) threats.

(** What [to_json] holds under a key that is not the name of a header. *)
Definition own_field (self : request.Request) (k : string) : option string :=
  if String.eqb k "request" then
    (if PyStr.truthy (request.request self) then request.request self else None)
  else if String.eqb k "body" then
    (if PyStr.truthy (request.body self) then request.body self else None)
  else None.

(** Two requests with the same request line, the same body and the same
    values under the four scanned headers. *)
Definition same_scanned (a b : request.Request) : Prop :=
  request.request a = request.request b
  /\ request.body a = request.body b
  /\ forall header, In header rule_engine.scanned_headers ->
       Dict.get header (request.headers a) = Dict.get header (request.headers b).

(* ===================================================================== *)
(** ** Dictionaries *)
(* ===================================================================== *)

Section DictFacts.
Context {V : Type}.
Implicit Types (d : Dict.dict V) (k : string) (v : V).

Lemma get_set_same k v d : Dict.get k (Dict.set k v d) = Some v.
Proof.
  induction d as [|[k' v'] d IH]; simpl.
  - now rewrite String.eqb_refl.
  - destruct (String.eqb k k') eqn:E; simpl; rewrite E; auto.
Qed.

Lemma get_set_other k k' v d :
  k <> k' -> Dict.get k (Dict.set k' v d) = Dict.get k d.
Proof.
  intros Hne. induction d as [|[k0 v0] d IH]; simpl.
  - destruct (String.eqb k k') eqn:E; auto.
    apply String.eqb_eq in E. contradiction.
  - destruct (String.eqb k' k0) eqn:E; simpl.
    + apply String.eqb_eq in E. subst k0.
      destruct (String.eqb k k') eqn:E'; auto.
      apply String.eqb_eq in E'. contradiction.
    + now rewrite IH.
Qed.

Lemma set_nonempty k v d : Dict.set k v d <> [].
Proof. destruct d as [|[k' v'] d]; simpl; [|destruct (String.eqb k k')]; discriminate. Qed.

Lemma nonempty_true d : Dict.nonempty d = true <-> d <> [].
Proof. destruct d; simpl; split; congruence. Qed.

Lemma nonempty_false d : Dict.nonempty d = false <-> d = [].
Proof. destruct d; simpl; split; congruence. Qed.

Lemma mem_get k d : Dict.mem k d = true <-> Dict.get k d <> None.
Proof. unfold Dict.mem. destruct (Dict.get k d); split; congruence. Qed.

Lemma get_none_not_key k d : Dict.get k d = None <-> ~ In k (Dict.keys d).
Proof.
  induction d as [|[k' v'] d IH]; simpl.
  - tauto.
  - destruct (String.eqb k k') eqn:E.
    + apply String.eqb_eq in E. subst. split; [discriminate | tauto].
    + apply String.eqb_neq in E. rewrite IH. split; [intros H [H'|H']; auto | tauto ].
Qed.

(** Writing a key adds at most that key. *)
Lemma keys_set k v d k0 :
  In k0 (Dict.keys (Dict.set k v d)) -> k0 = k \/ In k0 (Dict.keys d).
Proof.
  induction d as [|[k' v'] d IH]; simpl.
  - intros [H|[]]; auto.
  - destruct (String.eqb k k') eqn:E; simpl.
    + tauto.
    + intros [H|H]; auto. destruct (IH H); auto.
Qed.

End DictFacts.

(* ===================================================================== *)
(** ** The signature engine *)
(* ===================================================================== *)

Lemma SIGNATURES_compiled :
  Forall (fun entry => Forall (fun pat => Re.compile pat <> None) (snd entry))
         rule_engine.SIGNATURE_TEXTS.
Proof.
  assert (H : forallb (fun entry =>
                forallb (fun pat => match Re.compile pat with
                                    | Some _ => true | None => false end)
                        (snd entry))
              rule_engine.SIGNATURE_TEXTS = true) by (vm_compute; reflexivity).
  rewrite forallb_forall in H. apply Forall_forall. intros entry Hin.
  specialize (H entry Hin). rewrite forallb_forall in H.
  apply Forall_forall. intros pat Hpat. specialize (H pat Hpat).
  destruct (Re.compile pat); congruence.
Qed.

Lemma SIGNATURES_keys :
  Dict.keys rule_engine.SIGNATURES = ["sqli"; "xss"; "cmdi"; "path-traversal"].
Proof.
  unfold rule_engine.SIGNATURES, Dict.keys. rewrite map_map. reflexivity.
Qed.

Section Tampering.

Local Abbreviation key := "parameter-tampering" (only parsing).

Lemma key_not_signature entry :
  In entry rule_engine.SIGNATURES -> fst entry <> key.
Proof.
  intros Hin Heq.
  assert (Hk : In key (Dict.keys rule_engine.SIGNATURES)).
  { rewrite <- Heq. unfold Dict.keys. now apply in_map. }
  rewrite SIGNATURES_keys in Hk. simpl in Hk.
  repeat (destruct Hk as [Hk|Hk]; [discriminate Hk|]). exact Hk.
Qed.

Lemma match_category_keeps text location threats entry :
  fst entry <> key ->
  Dict.get key (rule_engine.match_category text location threats entry)
  = Dict.get key threats.
Proof.
  intros Hne. destruct entry as [threat patterns]. simpl in *.
  destruct (Dict.mem threat threats); [reflexivity|].
  destruct (existsb _ patterns); [|reflexivity].
  apply get_set_other. congruence.
Qed.

Lemma fold_categories_keep text location entries :
  (forall entry, In entry entries -> fst entry <> key) ->
  forall threats,
    Dict.get key (fold_left (rule_engine.match_category text location) entries threats)
    = Dict.get key threats.
Proof.
  induction entries as [|entry entries IH]; intros Hall threats; simpl.
  - reflexivity.
  - rewrite IH by (intros e He; apply Hall; now right).
    apply match_category_keeps. apply Hall. now left.
Qed.

Lemma match_field_keeps threats tl :
  Dict.get key (rule_engine.match_field threats tl) = Dict.get key threats.
Proof.
  unfold rule_engine.match_field.
  apply fold_categories_keep. apply key_not_signature.
Qed.

(** The signatures never write the tampering label. *)
Lemma signature_matching_no_tampering req :
  Dict.get key (rule_engine.signature_matching req) = None.
Proof.
  unfold rule_engine.signature_matching.
  assert (H : forall fields threats,
             Dict.get key threats = None ->
             Dict.get key (fold_left rule_engine.match_field fields threats) = None).
  { induction fields as [|tl fields IH]; intros threats Hnone; simpl; auto.
    apply IH. now rewrite match_field_keeps. }
  now apply H.
Qed.

(** The length check, started without the tampering label: it writes the
    label exactly when some value is too long, at the given location. *)
Lemma check_lengths_get vlists location threats :
  Dict.get key threats = None ->
  Dict.get key (rule_engine.check_lengths vlists location threats)
  = if existsb rule_engine.too_long (List.concat vlists) then Some location else None.
Proof.
  revert threats. induction vlists as [|vlist rest IH]; intros threats Hnone; simpl.
  - exact Hnone.
  - rewrite existsb_app.
    destruct (existsb rule_engine.too_long vlist) eqn:E; simpl.
    + unfold Dict.mem. now rewrite get_set_same, get_set_same.
    + unfold Dict.mem. rewrite Hnone. now apply IH.
Qed.

Lemma scan_request_tampering json_loads req :
  Dict.get key (rule_engine.scan_request json_loads req)
  = if existsb rule_engine.too_long (param_values json_loads req)
    then Some (if Dict.nonempty (rule_engine.body_params json_loads req)
               then "Body" else "Request")
    else None.
Proof.
  unfold rule_engine.scan_request, param_values.
  apply check_lengths_get. apply signature_matching_no_tampering.
Qed.

End Tampering.

(** C5. In the tampering check of the signature engine, a request whose
    single parameter value has exactly 100 characters does not receive the
    label [parameter-tampering], and one whose single parameter value has
    101 characters does. *)
Theorem tampering_length_boundary
        (json_loads : string -> option Py.obj) (req : request.Request) (v : string) :
  param_values json_loads req = [v] ->
  (String.length v = 100 ->
   Dict.mem "parameter-tampering" (rule_engine.scan_request json_loads req) = false)
  /\
  (String.length v = 101 ->
   Dict.mem "parameter-tampering" (rule_engine.scan_request json_loads req) = true).
Proof.
  intros Hv. unfold Dict.mem. rewrite scan_request_tampering, Hv. simpl.
  unfold rule_engine.too_long.
  split; intros Hlen; rewrite Hlen; reflexivity.
Qed.

Lemma tampering_length_boundary_witness :
  Dict.mem "parameter-tampering"
    (rule_engine.scan_request Json.loads
       (with_request ("/search?q=" ++ repeat_char "a" 101))) = true.
Proof.
  destruct (tampering_length_boundary Json.loads
              (with_request ("/search?q=" ++ repeat_char "a" 101))
              (repeat_char "a" 101)) as [_ H].
  - vm_compute. reflexivity.
  - apply H. vm_compute. reflexivity.
Defined.

Example tampering_at_100 :
  rule_engine.scan_request Json.loads
    (with_request ("/search?q=" ++ repeat_char "a" 100)) = [].
Proof. vm_compute. reflexivity. Qed.

Example tampering_at_101 :
  rule_engine.scan_request Json.loads
    (with_request ("/search?q=" ++ repeat_char "a" 101))
  = [("parameter-tampering", "Request")].
Proof. vm_compute. reflexivity. Qed.

Example tampering_json_token :
  rule_engine.scan_request Json.loads
    (with_body (Json.text "{'token': '" ++ repeat_char "a" 101 ++ Json.text "'}"))
  = [("parameter-tampering", "Body")].
Proof. vm_compute. reflexivity. Qed.

(** C9. When the tampering check of the signature engine fires, the
    recorded location is [Body] whenever body parameters exist and
    [Request] otherwise; in particular it is [Body] when no body value is
    too long (the long value lies in the query) and the body yields
    parameters. *)
Theorem tampering_location_is_coarse
        (json_loads : string -> option Py.obj) (req : request.Request) :
  existsb rule_engine.too_long (param_values json_loads req) = true ->
  Dict.get "parameter-tampering" (rule_engine.scan_request json_loads req)
  = Some (if Dict.nonempty (rule_engine.body_params json_loads req)
          then "Body" else "Request")
  /\
  (existsb rule_engine.too_long
     (List.concat (Dict.values (rule_engine.body_params json_loads req))) = false ->
   rule_engine.body_params json_loads req <> [] ->
   Dict.get "parameter-tampering" (rule_engine.scan_request json_loads req)
   = Some "Body").
Proof.
  intros Hlong. rewrite scan_request_tampering, Hlong. split.
  - reflexivity.
  - intros _ Hbody. apply nonempty_true in Hbody. now rewrite Hbody.
Qed.

Lemma tampering_location_is_coarse_witness :
  rule_engine.scan_request Json.loads
    (with_request_and_body ("/search?q=" ++ repeat_char "a" 101) "x=1")
  = [("parameter-tampering", "Body")].
Proof.
  pose proof (tampering_location_is_coarse Json.loads
                (with_request_and_body ("/search?q=" ++ repeat_char "a" 101) "x=1")) as H.
  destruct H as [H _].
  - vm_compute. reflexivity.
  - vm_compute. reflexivity.
Defined.

(* ===================================================================== *)
(** ** The classification pipeline *)
(* ===================================================================== *)

Lemma classify_request_on_hit
      (json_loads : string -> option Py.obj)
      (self : classifier.ThreatClassifier) (req : request.Request) :
  rule_engine.scan_request json_loads req <> [] ->
  classifier.classify_request json_loads self req
  = {| classifier.out_req :=
         request.set_threats req (rule_engine.scan_request json_loads req);
       classifier.out_calls := [];
       classifier.out_exn := None |}.
Proof.
  intros Hhit. apply nonempty_true in Hhit.
  unfold classifier.classify_request. now rewrite Hhit.
Qed.

(** C2. When the signature engine returns a non-empty mapping, the request
    gets exactly that mapping, no exception is raised and neither model is
    called. *)
Theorem signature_hit_skips_models
        (json_loads : string -> option Py.obj)
        (self : classifier.ThreatClassifier) (req : request.Request) :
  rule_engine.scan_request json_loads req <> [] ->
  classifier.classify_request json_loads self req
  = {| classifier.out_req :=
         request.set_threats req (rule_engine.scan_request json_loads req);
       classifier.out_calls := [];
       classifier.out_exn := None |}.
Proof.
  intros Hhit. unfold classifier.classify_request.
  destruct (rule_engine.scan_request json_loads req) as [|entry rest] eqn:Hscan.
  - contradiction.
  - reflexivity.
Qed.

Lemma signature_hit_skips_models_witness :
  classifier.out_calls
    (classifier.classify_request Json.loads always_valid
       (with_request "/page?name=<script>x</script>")) = []
  /\ request.threats
       (classifier.out_req
          (classifier.classify_request Json.loads always_valid
             (with_request "/page?name=<script>x</script>")))
     = [("xss", "Request")].
Proof.
  rewrite (signature_hit_skips_models Json.loads always_valid
             (with_request "/page?name=<script>x</script>")).
  - split; vm_compute; reflexivity.
  - vm_compute. discriminate.
Defined.

(** The labels written by one model are among its answers. *)
Lemma record_predictions_keys predictions locations :
  forall idx threats label,
    In label (Dict.keys (classifier.record_predictions idx predictions locations threats)) ->
    In label (Dict.keys threats) \/ (label <> "valid" /\ In label predictions).
Proof.
  induction predictions as [|pred rest IH]; intros idx threats label; simpl.
  - tauto.
  - destruct (String.eqb pred "valid") eqn:E.
    + intros H. destruct (IH _ _ _ H) as [H'|[H1 H2]]; auto.
    + apply String.eqb_neq in E.
      destruct (nth_error locations idx) as [location|]; [|tauto].
      intros H. destruct (IH _ _ _ H) as [H'|[H1 H2]]; auto.
      destruct (keys_set _ _ _ _ H') as [->|H'']; auto.
Qed.

Lemma text_classification_keys self req threats label :
  In label (Dict.keys
              (fst (classifier.text_classification self
                      (map fst (classifier.text_features req))
                      (map snd (classifier.text_features req)) threats))) ->
  In label (Dict.keys threats) \/ (label <> "valid" /\ In label (clf_labels self req)).
Proof.
  unfold classifier.text_classification, clf_labels.
  destruct (map fst (classifier.text_features req)) as [|p ps]; [simpl; tauto|].
  destruct (classifier.clf self) as [predict|]; [|simpl; tauto].
  destruct (predict (p :: ps)) as [predictions|]; simpl; [|tauto].
  apply record_predictions_keys.
Qed.

Lemma tampering_classification_keys json_loads self req lengths threats label :
  classifier.length_features json_loads req = inr lengths ->
  In label (Dict.keys
              (fst (classifier.tampering_classification self
                      (map fst lengths) (map snd lengths) threats))) ->
  In label (Dict.keys threats)
  \/ (label <> "valid" /\ In label (pt_clf_labels json_loads self req)).
Proof.
  intros Hlen. unfold classifier.tampering_classification, pt_clf_labels.
  rewrite Hlen.
  destruct (map fst lengths) as [|f fs]; [simpl; tauto|].
  destruct (classifier.pt_clf self) as [predict|]; [|simpl; tauto].
  destruct (predict (f :: fs)) as [pt_preds|]; simpl; [|tauto].
  apply record_predictions_keys.
Qed.

(** C1. After [classify_request] returns, the threat map of the request is
    not empty: it is the non-empty mapping of the signature engine, or it
    holds labels answered by the models, or it is exactly [{valid: ''}]. *)
Theorem classified_threats_nonempty
        (json_loads : string -> option Py.obj)
        (self : classifier.ThreatClassifier) (req : request.Request) :
  classifier.out_exn (classifier.classify_request json_loads self req) = None ->
  let threats :=
    request.threats (classifier.out_req (classifier.classify_request json_loads self req)) in
  threats <> [] /\
  ((rule_engine.scan_request json_loads req <> [] /\
    threats = rule_engine.scan_request json_loads req)
   \/ (rule_engine.scan_request json_loads req = [] /\
       ml_derived json_loads self req threats)
   \/ (rule_engine.scan_request json_loads req = [] /\
       threats = [("valid", EmptyString)])).
Proof.
  unfold classifier.classify_request.
  destruct (Dict.nonempty (rule_engine.scan_request json_loads req)) eqn:Hscan.
  - apply nonempty_true in Hscan. simpl. intros _. split; auto.
  - apply nonempty_false in Hscan.
    pose proof (fun label => text_classification_keys self req [] label) as Htext.
    destruct (classifier.text_classification self _ _ []) as [threats1 calls].
    destruct (classifier.length_features json_loads req) as [e|lengths] eqn:Hlen;
      [simpl; discriminate|].
    pose proof (fun label =>
                  tampering_classification_keys json_loads self req lengths threats1 label Hlen)
      as Hpt.
    destruct (classifier.tampering_classification self _ _ threats1)
      as [threats2 pt_calls].
    simpl in *. intros _.
    destruct threats2 as [|entry threats2]; simpl.
    + split; [discriminate|]. right. right. auto.
    + split; [discriminate|]. right. left. split; [exact Hscan|].
      intros label Hin. rewrite in_app_iff.
      destruct (Hpt label Hin) as [H1|[H1 H2]]; [|tauto].
      destruct (Htext label H1) as [[]|[H2 H3]]. tauto.
Qed.

Lemma classified_threats_nonempty_witness :
  request.threats
    (classifier.out_req
       (classifier.classify_request Json.loads always_valid
          (with_request "GET /search?q=hello"))) <> [].
Proof.
  apply (classified_threats_nonempty Json.loads always_valid
           (with_request "GET /search?q=hello")).
  vm_compute. reflexivity.
Defined.

(** The scenario of a harmless search: both models answer ['valid'] and
    the request is recorded as valid. *)
Example harmless_search :
  classifier.classify_request Json.loads always_valid
    (with_request "GET /search?q=hello")
  = {| classifier.out_req :=
         request.set_threats (with_request "GET /search?q=hello")
                             [("valid", EmptyString)];
       classifier.out_calls :=
         [classifier.clf_predict ["get /search?q=hello"];
          classifier.pt_clf_predict [[5]]];
       classifier.out_exn := None |}.
Proof. vm_compute. reflexivity. Qed.

(* ===================================================================== *)
(** ** The audit store *)
(* ===================================================================== *)

Section Store.
Import DBController.

Lemma lastrowid_above rows row :
  In row rows -> (log_id row < lastrowid rows)%Z.
Proof.
  unfold lastrowid. induction rows as [|r rows IH]; simpl; [tauto|].
  intros [->|Hin]; [lia|]. specialize (IH Hin). lia.
Qed.

Lemma threat_rows_appended id entries rows :
  fold_left
    (fun rows tl =>
       (rows ++ [{| threat_log_id := id; threat_type := fst tl; location := snd tl |}])%list)
    entries rows
  = (rows ++ map (fun tl => {| threat_log_id := id; threat_type := fst tl;
                               location := snd tl |}) entries)%list.
Proof.
  revert rows. induction entries as [|tl entries IH]; intros rows; simpl.
  - now rewrite app_nil_r.
  - rewrite IH, <- app_assoc. reflexivity.
Qed.

Lemma filter_below_bound (bound : Z) (rows : list log_row) :
  (forall row, In row rows -> (log_id row < bound)%Z) ->
  filter (fun l => Z.eqb (log_id l) bound) rows = [].
Proof.
  induction rows as [|r rows IH]; intros Hrows; simpl; [reflexivity|].
  destruct (Z.eqb_spec (log_id r) bound) as [Heq|_].
  - specialize (Hrows r (or_introl eq_refl)). lia.
  - apply IH. intros row Hin. apply Hrows. now right.
Qed.

Lemma no_old_log_row self :
  filter (fun l => Z.eqb (log_id l) (lastrowid (logs self))) (logs self) = [].
Proof. apply filter_below_bound, lastrowid_above. Qed.

Lemma no_old_threat_row self :
  references_ok self = true ->
  filter (fun t => Z.eqb (lastrowid (logs self)) (threat_log_id t)) (threats self) = [].
Proof.
  unfold references_ok. intros Hok. rewrite forallb_forall in Hok.
  assert (Hall : forall t, In t (threats self) ->
                           (threat_log_id t < lastrowid (logs self))%Z).
  { intros t Hin. specialize (Hok t Hin). apply existsb_exists in Hok.
    destruct Hok as [l [Hl Heq]]. apply Z.eqb_eq in Heq. rewrite <- Heq.
    now apply lastrowid_above. }
  induction (threats self) as [|t rows IH]; simpl; [reflexivity|].
  destruct (Z.eqb_spec (lastrowid (logs self)) (threat_log_id t)) as [Heq|_].
  - specialize (Hall t (or_introl eq_refl)). lia.
  - apply IH; intros; apply Hall || apply Hok; now right.
Qed.

(** The store starts consistent and [save] keeps it so. *)
Lemma references_ok_empty : references_ok empty = true.
Proof. reflexivity. Qed.

Lemma references_ok_save self now obj :
  references_ok self = true -> references_ok (fst (save self now obj)) = true.
Proof.
  unfold references_ok, save. simpl. intros Hok.
  rewrite threat_rows_appended, forallb_app. apply andb_true_intro. split.
  - rewrite forallb_forall in *. intros t Hin. specialize (Hok t Hin).
    rewrite existsb_app, Hok. reflexivity.
  - rewrite forallb_forall. intros t Hin. apply in_map_iff in Hin.
    destruct Hin as [tl [<- _]]. simpl.
    rewrite existsb_app. simpl. rewrite Z.eqb_refl. now rewrite orb_true_r.
Qed.

(** C7. Saving a request whose threat map is [{xss: 'Cookie'}] and reading
    it back under the identifier it was given yields the one threat pair
    [(xss, Cookie)] and the timestamp, origin, host and method that were
    saved. *)
Theorem save_read_request_roundtrip
        (self : store) (now : request.datetime) (obj : request.Request) :
  references_ok self = true ->
  request.threats obj = [("xss", "Cookie")] ->
  exists id : Z,
    request.id (snd (save self now obj)) = Some id /\
    request.timestamp (snd (save self now obj)) = Some now /\
    read_request (fst (save self now obj)) id
    = (Some {| meta_timestamp := Some now;
               meta_origin := request.origin obj;
               meta_host := request.host obj;
               meta_method := request.method obj |},
       [("xss", "Cookie")]).
Proof.
  intros Hok Hthreats. exists (lastrowid (logs self)).
  split; [reflexivity|]. split; [reflexivity|].
  unfold read_request, joined, save. simpl.
  rewrite Hthreats. simpl.
  rewrite filter_app, no_old_log_row. simpl. rewrite Z.eqb_refl. simpl.
  rewrite filter_app, (no_old_threat_row self Hok). simpl.
  rewrite Z.eqb_refl. reflexivity.
Qed.

Lemma save_read_request_roundtrip_witness :
  exists id : Z,
    read_request
      (fst (save empty "2024-05-01 12:00:00.000000"
              (request.set_threats (with_request "/") [("xss", "Cookie")]))) id
    = (Some {| meta_timestamp := Some "2024-05-01 12:00:00.000000";
               meta_origin := None; meta_host := None; meta_method := None |},
       [("xss", "Cookie")]).
Proof.
  destruct (save_read_request_roundtrip empty "2024-05-01 12:00:00.000000"
              (request.set_threats (with_request "/") [("xss", "Cookie")]))
    as [id [_ [_ H]]].
  - reflexivity.
  - reflexivity.
  - exists id. exact H.
Defined.

(** An identifier that was never assigned reads back as nothing. *)
Lemma read_request_unknown self id :
  (lastrowid (logs self) <= id)%Z -> read_request self id = (None, []).
Proof.
  intros Hid. unfold read_request, joined.
  assert (H : filter (fun l => Z.eqb (log_id l) id) (logs self) = []).
  { apply filter_below_bound. intros row Hin.
    pose proof (lastrowid_above (logs self) row Hin). lia. }
  rewrite H. reflexivity.
Qed.

(** C10. [save] changes only the identifier and the timestamp of the
    request: origin, host, request line, body, method, headers and threats
    are as before. *)
Theorem save_frame
        (self : store) (now : request.datetime) (obj : request.Request) :
  let saved := snd (save self now obj) in
  request.origin saved = request.origin obj /\
  request.host saved = request.host obj /\
  request.request saved = request.request obj /\
  request.body saved = request.body obj /\
  request.method saved = request.method obj /\
  request.headers saved = request.headers obj /\
  request.threats saved = request.threats obj.
Proof. simpl. repeat split. Qed.

End Store.

(* ===================================================================== *)
(** ** Worked requests *)
(* ===================================================================== *)

(** What the model path does once the signature engine found nothing and
    the length features cannot be built. *)
Lemma classify_request_raises
      (json_loads : string -> option Py.obj)
      (self : classifier.ThreatClassifier) (req : request.Request) (e : Py.exn) :
  rule_engine.scan_request json_loads req = [] ->
  classifier.length_features json_loads req = inl e ->
  classifier.out_exn (classifier.classify_request json_loads self req) = Some e.
Proof.
  intros Hscan Hlen. unfold classifier.classify_request.
  rewrite Hscan, Hlen. simpl.
  destruct (classifier.text_classification self _ _ []). reflexivity.
Qed.

(** C3. A body that is a JSON object with a number for value, or a JSON
    array, is a string the signature engine copes with, but the model path
    of [classify_request] lets the [TypeError], respectively the
    [AttributeError], reach the caller, whatever the models are. *)
Theorem model_path_raises_on_json_body (self : classifier.ThreatClassifier) :
  classifier.out_exn
    (classifier.classify_request Json.loads self (with_body (Json.text "{'a': 1}")))
  = Some Py.TypeError
  /\
  classifier.out_exn
    (classifier.classify_request Json.loads self (with_body "[1]"))
  = Some Py.AttributeError.
Proof.
  split; apply classify_request_raises; vm_compute; reflexivity.
Qed.

(** The signature engine on the same bodies: the number is measured
    through [str], the array gives no parameters. *)
Example signature_engine_on_json_number :
  rule_engine.body_params Json.loads (with_body (Json.text "{'a': 1}")) = [("a", ["1"])]
  /\ rule_engine.body_params Json.loads (with_body "[1]") = [].
Proof. split; vm_compute; reflexivity. Qed.

(** The request line of the scenario, as written, matches no signature:
    the models are consulted. *)
Lemma sqli_open_quote_not_matched :
  rule_engine.scan_request Json.loads (with_request "GET /?id=1' OR '1'='1") = []
  /\
  classifier.classify_request Json.loads always_valid
    (with_request "GET /?id=1' OR '1'='1")
  = {| classifier.out_req :=
         request.set_threats (with_request "GET /?id=1' OR '1'='1")
                             [("valid", EmptyString)];
       classifier.out_calls :=
         [classifier.clf_predict ["get /?id=1' or '1'='1"];
          classifier.pt_clf_predict [[12]]];
       classifier.out_exn := None |}.
Proof. split; vm_compute; reflexivity. Qed.

(** C4, amended. With the last literal closed, [GET /?id=1' OR '1'='1'],
    the signature phase assigns [sqli] at [Request] and nothing else, and
    the models are not called; the line without the closing quote matches
    no signature. *)
Theorem sqli_closed_quote_detected (self : classifier.ThreatClassifier) :
  classifier.classify_request Json.loads self (with_request "GET /?id=1' OR '1'='1'")
  = {| classifier.out_req :=
         request.set_threats (with_request "GET /?id=1' OR '1'='1'")
                             [("sqli", "Request")];
       classifier.out_calls := [];
       classifier.out_exn := None |}
  /\
  rule_engine.scan_request Json.loads (with_request "GET /?id=1' OR '1'='1") = [].
Proof.
  assert (Hscan : rule_engine.scan_request Json.loads
                    (with_request "GET /?id=1' OR '1'='1'")
                  = [("sqli", "Request")]) by (vm_compute; reflexivity).
  split; [|vm_compute; reflexivity].
  rewrite classify_request_on_hit; rewrite Hscan; [reflexivity|discriminate].
Qed.

(* ===================================================================== *)
(** ** The text normaliser *)
(* ===================================================================== *)

Section Characters.
Import PyStr.

Ltac by_cases c := destruct c as [[] [] [] [] [] [] [] []]; reflexivity.

Lemma lower_char_idem c : lower_char (lower_char c) = lower_char c.
Proof. by_cases c. Qed.

Lemma isspace_lower c : isspace (lower_char c) = isspace c.
Proof. by_cases c. Qed.

Lemma ishex_lower c : ishex (lower_char c) = ishex c.
Proof. by_cases c. Qed.

Lemma percent_lower c : Ascii.eqb (lower_char c) "%" = Ascii.eqb c "%".
Proof. by_cases c. Qed.

Lemma not_plus_lower c : not_plus (lower_char c) = not_plus c.
Proof. by_cases c. Qed.

Lemma space_not_hex c : isspace c = true -> ishex c = false.
Proof. destruct c as [[] [] [] [] [] [] [] []]; intros H; try reflexivity; discriminate H. Qed.

Lemma space_not_percent c : isspace c = true -> Ascii.eqb c "%" = false.
Proof. destruct c as [[] [] [] [] [] [] [] []]; intros H; try reflexivity; discriminate H. Qed.

End Characters.

Section Decoding.
Import PyStr Urllib.

Lemma unquote_plain c s :
  escape_at (String c s) = false -> unquote (String c s) = String c (unquote s).
Proof.
  simpl. destruct (Ascii.eqb c "%"); [|reflexivity].
  destruct s as [|h1 [|h2 s]]; try reflexivity.
  simpl. intros ->. reflexivity.
Qed.

Lemma unquote_escape c h1 h2 s :
  escape_at (String c (String h1 (String h2 s))) = true ->
  unquote (String c (String h1 (String h2 s)))
  = String (ascii_of_nat (16 * hexval h1 + hexval h2)) (unquote s).
Proof.
  intros H. simpl in H. apply andb_prop in H. destruct H as [Hc Hh].
  cbn [unquote]. rewrite Hc, Hh. reflexivity.
Qed.

(** Decoding never lengthens a text, and keeps its length only when it
    changes nothing. *)
Lemma unquote_length_bounded n :
  forall s, String.length s <= n ->
    String.length (unquote s) <= String.length s /\
    (String.length (unquote s) = String.length s -> unquote s = s).
Proof.
  induction n as [|n IH]; intros s Hn.
  - destruct s; simpl in Hn; [simpl; auto | lia].
  - destruct s as [|c s]; [simpl; auto|].
    destruct (escape_at (String c s)) eqn:E.
    + destruct s as [|h1 [|h2 s]]; try discriminate E.
      rewrite (unquote_escape _ _ _ _ E). simpl in *.
      destruct (IH s ltac:(lia)) as [Hle _]. split; lia.
    + rewrite (unquote_plain _ _ E). simpl in *.
      destruct (IH s ltac:(lia)) as [Hle Heq]. split; [lia|].
      intros H. f_equal. apply Heq. lia.
Qed.

Lemma unquote_length s : String.length (unquote s) <= String.length s.
Proof. apply (unquote_length_bounded (String.length s)). lia. Qed.

Lemma unquote_same_length s :
  String.length (unquote s) = String.length s -> unquote s = s.
Proof. apply (unquote_length_bounded (String.length s)). lia. Qed.

Lemma unquote_fixed s : unquote s = s <-> escape_free s = true.
Proof.
  induction s as [|c s IH].
  - simpl. tauto.
  - cbn [escape_free]. destruct (escape_at (String c s)) eqn:E; cbn [negb andb].
    + split; [|discriminate]. intros H.
      destruct s as [|h1 [|h2 s]]; try discriminate E.
      rewrite (unquote_escape _ _ _ _ E) in H.
      apply (f_equal String.length) in H. simpl in H.
      pose proof (unquote_length s). lia.
    + rewrite (unquote_plain _ _ E). rewrite <- IH.
      split; [intros H; now injection H | intros ->; reflexivity].
Qed.

Lemma replace_plus_length s :
  String.length (replace_char "+" " " s) = String.length s.
Proof. induction s as [|c s IH]; simpl; auto. Qed.

Lemma replace_plus_fixed s :
  replace_char "+" " " s = s <-> all_chars not_plus s = true.
Proof.
  induction s as [|c s IH]; simpl.
  - tauto.
  - unfold not_plus at 1. destruct (Ascii.eqb_spec c "+") as [->|Hne]; simpl.
    + split; discriminate.
    + rewrite <- IH. split; [intros H; now injection H | intros ->; reflexivity].
Qed.

(** The fixed points of [unquote_plus]: no plus sign and no escape. *)
Lemma unquote_plus_fixed s :
  unquote_plus s = s <-> all_chars not_plus s = true /\ escape_free s = true.
Proof.
  unfold unquote_plus. split.
  - intros H.
    assert (Hsame : unquote (replace_char "+" " " s) = replace_char "+" " " s).
    { apply unquote_same_length. rewrite H. symmetry. apply replace_plus_length. }
    rewrite Hsame in H. split.
    + now apply replace_plus_fixed.
    + apply unquote_fixed. now rewrite H in Hsame.
  - intros [Hplus Hesc]. apply replace_plus_fixed in Hplus. rewrite Hplus.
    now apply unquote_fixed.
Qed.

Lemma unquote_loop_fixed n s :
  unquote_plus s = s -> rule_engine.unquote_loop n s = s.
Proof.
  intros H. destruct n; simpl; [reflexivity|]. rewrite H.
  now rewrite String.eqb_refl.
Qed.

Lemma decode_rounds_unquote_loop n s :
  classifier.decode_rounds n s = rule_engine.unquote_loop n s.
Proof.
  revert s. induction n as [|n IH]; intros s; simpl; [reflexivity|].
  destruct (String.eqb (unquote_plus s) s); auto.
Qed.

(** The two normalisers are one function. *)
Lemma clean_text_is_clean text :
  classifier._clean_text text = rule_engine._clean text.
Proof.
  destruct text as [text|]; [|reflexivity].
  unfold classifier._clean_text, rule_engine._clean, rule_engine._unquote.
  now rewrite decode_rounds_unquote_loop.
Qed.

End Decoding.

Section Whitespace.
Import PyStr.

Lemma append_nil_r (s : string) : s ++ EmptyString = s.
Proof. induction s as [|c s IH]; simpl; congruence. Qed.

Lemma split_ws_cons c s :
  split_ws (String c s)
  = if isspace c then split_ws s
    else if starts_word s then
           match split_ws s with
           | w :: ws => String c w :: ws
           | [] => [String c EmptyString]
           end
         else String c EmptyString :: split_ws s.
Proof. reflexivity. Qed.

Lemma split_ws_lstrip s : split_ws (lstrip s) = split_ws s.
Proof.
  induction s as [|c s IH]; [reflexivity|]. cbn [lstrip].
  destruct (isspace c) eqn:E; [|reflexivity]. rewrite IH. simpl. now rewrite E.
Qed.

Lemma rstrip_head s a r : rstrip s = String a r -> exists t, s = String a t.
Proof.
  destruct s as [|c s]; simpl; [discriminate|].
  destruct (rstrip s); [destruct (isspace c)|]; intros H; try discriminate H;
    injection H as -> _; eauto.
Qed.

Lemma split_ws_rstrip s : split_ws (rstrip s) = split_ws s.
Proof.
  induction s as [|c s IH]; [reflexivity|]. cbn [rstrip].
  destruct (rstrip s) as [|a r] eqn:Hr.
  - simpl in IH. destruct (isspace c) eqn:E; simpl; rewrite E, <- IH.
    + reflexivity.
    + now destruct (starts_word s).
  - destruct (rstrip_head _ _ _ Hr) as [t Ht].
    rewrite (split_ws_cons c (String a r)), (split_ws_cons c s), IH.
    replace (starts_word (String a r)) with (starts_word s)
      by (rewrite Ht; reflexivity).
    reflexivity.
Qed.

Lemma split_ws_strip s : split_ws (strip s) = split_ws s.
Proof. unfold strip. now rewrite split_ws_rstrip, split_ws_lstrip. Qed.

Lemma collapse_split s : collapse s = join " " (split_ws s).
Proof. unfold collapse. now rewrite split_ws_strip. Qed.

(** What [split] returns are words. *)
Lemma split_ws_words s : Forall (fun w => is_word w = true) (split_ws s).
Proof.
  induction s as [|c s IH]; simpl; [constructor|].
  destruct (isspace c) eqn:E; [exact IH|].
  assert (Hc : is_word (String c EmptyString) = true)
    by (unfold is_word, not_space; simpl; now rewrite E).
  destruct (starts_word s).
  - destruct (split_ws s) as [|w ws]; [now constructor|].
    inversion IH as [|? ? Hw Hws]; subst. constructor; [|exact Hws].
    unfold is_word, not_space in *. simpl. rewrite E. simpl.
    apply andb_prop in Hw. tauto.
  - now constructor.
Qed.

(** Splitting a word followed by white space, or by nothing. *)
Lemma split_ws_word_app w rest :
  is_word w = true -> starts_word rest = false ->
  split_ws (w ++ rest) = w :: split_ws rest.
Proof.
  intros Hw Hrest. induction w as [|c w IH]; [discriminate Hw|].
  unfold is_word, not_space in Hw. simpl in Hw.
  destruct (isspace c) eqn:E; [discriminate Hw|]. simpl in Hw.
  simpl. rewrite E. destruct w as [|c' w].
  - simpl. now rewrite Hrest.
  - simpl in Hw. apply andb_prop in Hw. destruct Hw as [Hc' Hw].
    assert (Hword : is_word (String c' w) = true)
      by (unfold is_word, not_space; simpl; now rewrite Hc', Hw).
    rewrite (IH Hword). simpl. now rewrite Hc'.
Qed.

Lemma split_ws_join ws :
  Forall (fun w => is_word w = true) ws -> split_ws (join " " ws) = ws.
Proof.
  induction ws as [|w ws IH]; intros Hall; [reflexivity|].
  inversion Hall as [|? ? Hw Hws]; subst. cbn [join].
  destruct ws as [|w' ws].
  - rewrite <- (append_nil_r w) at 1. now rewrite split_ws_word_app.
  - rewrite split_ws_word_app by (auto; reflexivity).
    change (split_ws (" " ++ join " " (w' :: ws))) with (split_ws (join " " (w' :: ws))).
    now rewrite IH.
Qed.

(** Collapsing white space twice is collapsing it once. *)
Lemma collapse_idempotent s : collapse (collapse s) = collapse s.
Proof.
  rewrite !collapse_split. now rewrite split_ws_join by apply split_ws_words.
Qed.

Lemma lower_app a b : lower (a ++ b) = lower a ++ lower b.
Proof. induction a as [|c a IH]; simpl; congruence. Qed.

Lemma lower_join ws : lower (join " " ws) = join " " (map lower ws).
Proof.
  induction ws as [|w ws IH]; [reflexivity|]. cbn [join map].
  destruct ws as [|w' ws]; [reflexivity|].
  rewrite lower_app. cbn [map] in *. rewrite <- IH. reflexivity.
Qed.

Lemma starts_word_lower s : starts_word (lower s) = starts_word s.
Proof. destruct s; simpl; [reflexivity|]. now rewrite isspace_lower. Qed.

Lemma split_ws_lower s : split_ws (lower s) = map lower (split_ws s).
Proof.
  induction s as [|c s IH]; [reflexivity|]. simpl.
  rewrite isspace_lower, starts_word_lower, IH.
  destruct (isspace c); [reflexivity|].
  destruct (starts_word s); [|reflexivity].
  now destruct (split_ws s).
Qed.

Lemma collapse_lower s : collapse (lower s) = lower (collapse s).
Proof. now rewrite !collapse_split, split_ws_lower, lower_join. Qed.

Lemma lower_idempotent s : lower (lower s) = lower s.
Proof. induction s as [|c s IH]; simpl; [reflexivity|]. now rewrite lower_char_idem, IH. Qed.

End Whitespace.

Section Preservation.
Import PyStr.

Variable P : ascii -> bool.

Lemma all_chars_app a b : all_chars P (a ++ b) = all_chars P a && all_chars P b.
Proof. induction a as [|c a IH]; simpl; [reflexivity|]. now rewrite IH, andb_assoc. Qed.

Lemma all_chars_split s :
  all_chars P s = true -> Forall (fun w => all_chars P w = true) (split_ws s).
Proof.
  induction s as [|c s IH]; simpl; [constructor|].
  intros H. apply andb_prop in H. destruct H as [Hc Hs]. specialize (IH Hs).
  destruct (isspace c); [exact IH|].
  assert (H1 : all_chars P (String c EmptyString) = true) by (simpl; now rewrite Hc).
  destruct (starts_word s); [|now constructor].
  destruct (split_ws s) as [|w ws]; [now constructor|].
  inversion IH as [|? ? Hw Hws]; subst.
  constructor; [simpl; now rewrite Hc, Hw | exact Hws].
Qed.

Lemma all_chars_join ws :
  P " " = true ->
  Forall (fun w => all_chars P w = true) ws -> all_chars P (join " " ws) = true.
Proof.
  intros Hsp. induction ws as [|w ws IH]; intros Hall; [reflexivity|].
  inversion Hall as [|? ? Hw Hws]; subst. cbn [join].
  destruct ws as [|w' ws]; [exact Hw|].
  rewrite all_chars_app, Hw. simpl. rewrite Hsp. simpl. now apply IH.
Qed.

Lemma all_chars_collapse s :
  P " " = true -> all_chars P s = true -> all_chars P (collapse s) = true.
Proof.
  intros Hsp Hs. rewrite collapse_split. now apply all_chars_join, all_chars_split.
Qed.

Lemma all_chars_lower s :
  (forall c, P (lower_char c) = P c) -> all_chars P (lower s) = all_chars P s.
Proof. intros HP. induction s as [|c s IH]; simpl; [reflexivity|]. now rewrite HP, IH. Qed.

End Preservation.

Section Escapes.
Import PyStr.

Lemma escape_at_lower s : escape_at (lower s) = escape_at s.
Proof.
  destruct s as [|c [|h1 [|h2 s]]]; try reflexivity.
  simpl. now rewrite percent_lower, !ishex_lower.
Qed.

Lemma escape_free_lower s : escape_free (lower s) = escape_free s.
Proof.
  induction s as [|c s IH]; [reflexivity|].
  change (lower (String c s)) with (String (lower_char c) (lower s)).
  cbn [escape_free]. rewrite IH. f_equal. f_equal.
  exact (escape_at_lower (String c s)).
Qed.

(** An escape that fits in a prefix is an escape of the whole. *)
Lemma escape_at_prefix c w rest :
  escape_at (String c w) = true -> escape_at (String c (w ++ rest)) = true.
Proof. destruct w as [|h1 [|h2 w]]; simpl; auto; discriminate. Qed.

(** An escape cannot reach across a space. *)
Lemma escape_at_before_space c w rest :
  escape_at (String c (w ++ String " " rest)) = escape_at (String c w).
Proof.
  destruct w as [|h1 [|h2 w]]; [destruct rest| |]; cbn [append escape_at];
    try reflexivity.
  - change (ishex " ") with false. now rewrite andb_false_r.
  - change (ishex " ") with false. now rewrite !andb_false_r.
Qed.

Lemma escape_free_app_space w rest :
  escape_free (w ++ String " " rest) = escape_free w && escape_free rest.
Proof.
  induction w as [|c w IH].
  - cbn [append escape_free].
    replace (escape_at (String " " rest)) with false
      by (now destruct rest as [|h1 [|h2 r]]).
    reflexivity.
  - change (String c w ++ String " " rest) with (String c (w ++ String " " rest)).
    cbn [escape_free]. now rewrite escape_at_before_space, IH, andb_assoc.
Qed.

(** The first word of a text that starts with one is a prefix of it. *)
Lemma first_word_prefix s w ws :
  starts_word s = true -> split_ws s = w :: ws -> exists rest, s = w ++ rest.
Proof.
  revert w ws. induction s as [|c s IH]; intros w ws Hstart Hsplit; [discriminate|].
  simpl in Hstart. rewrite split_ws_cons in Hsplit.
  destruct (isspace c); [discriminate|].
  destruct (starts_word s) eqn:Hs.
  - destruct (split_ws s) as [|w' ws'] eqn:Hw.
    + injection Hsplit as <- _. now exists s.
    + injection Hsplit as <- _. destruct (IH w' ws' eq_refl eq_refl) as [rest ->].
      now exists rest.
  - injection Hsplit as <- _. now exists s.
Qed.

Lemma escape_free_split s :
  escape_free s = true -> Forall (fun w => escape_free w = true) (split_ws s).
Proof.
  induction s as [|c s IH]; [constructor|].
  cbn [escape_free]. intros H. apply andb_prop in H. destruct H as [Hat Hs].
  specialize (IH Hs). rewrite split_ws_cons.
  destruct (isspace c); [exact IH|].
  destruct (starts_word s) eqn:Hstart; [|now constructor].
  destruct (split_ws s) as [|w ws] eqn:Hw; [now constructor|].
  inversion IH as [|? ? Hfree Hws]; subst.
  constructor; [|exact Hws].
  cbn [escape_free]. rewrite Hfree, andb_true_r.
  destruct (first_word_prefix s w ws Hstart Hw) as [rest ->].
  destruct (escape_at (String c w)) eqn:E; [|reflexivity].
  rewrite (escape_at_prefix c w rest E) in Hat. discriminate Hat.
Qed.

Lemma escape_free_join ws :
  Forall (fun w => escape_free w = true) ws -> escape_free (join " " ws) = true.
Proof.
  induction ws as [|w ws IH]; intros Hall; [reflexivity|].
  inversion Hall as [|? ? Hw Hws]; subst. cbn [join].
  destruct ws as [|w' ws]; [exact Hw|].
  change (w ++ " " ++ join " " (w' :: ws))
    with (w ++ String " " (join " " (w' :: ws))).
  rewrite escape_free_app_space, Hw. now apply IH.
Qed.

Lemma escape_free_collapse s :
  escape_free s = true -> escape_free (collapse s) = true.
Proof.
  intros H. rewrite collapse_split. now apply escape_free_join, escape_free_split.
Qed.

End Escapes.

(** A decoded text, once collapsed and lower-cased, needs no decoding. *)
Lemma normal_form_decoded y :
  Urllib.unquote_plus y = y ->
  Urllib.unquote_plus (PyStr.lower (collapse y)) = PyStr.lower (collapse y).
Proof.
  intros H. apply unquote_plus_fixed in H. destruct H as [Hplus Hesc].
  apply unquote_plus_fixed. split.
  - rewrite all_chars_lower by apply not_plus_lower.
    now apply all_chars_collapse.
  - rewrite escape_free_lower. now apply escape_free_collapse.
Qed.

Lemma clean_unfold x :
  rule_engine._clean (Some x) = PyStr.lower (collapse (rule_engine._unquote x)).
Proof. reflexivity. Qed.

Lemma clean_idempotent_on_stable text :
  stabilizes text ->
  rule_engine._clean (Some (rule_engine._clean text)) = rule_engine._clean text.
Proof.
  destruct text as [x|]; [|reflexivity]. simpl stabilizes. intros Hstable.
  rewrite !clean_unfold.
  pose proof (normal_form_decoded _ Hstable) as Hfixed.
  unfold rule_engine._unquote at 1. rewrite (unquote_loop_fixed 5 _ Hfixed).
  now rewrite collapse_lower, collapse_idempotent, lower_idempotent.
Qed.

(** C6. The normaliser is idempotent on every input whose decoding settles
    within the five rounds: normalising the normalised text changes
    nothing, for [_clean] of the rule engine and for [_clean_text] of the
    classifier alike. *)
Theorem normalize_idempotent (text : option string) :
  stabilizes text ->
  rule_engine._clean (Some (rule_engine._clean text)) = rule_engine._clean text
  /\
  classifier._clean_text (Some (classifier._clean_text text))
  = classifier._clean_text text.
Proof.
  intros Hstable. split.
  - now apply clean_idempotent_on_stable.
  - rewrite (clean_text_is_clean text),
      (clean_text_is_clean (Some (rule_engine._clean text))).
    now apply clean_idempotent_on_stable.
Qed.

Lemma normalize_idempotent_witness :
  rule_engine._clean (Some (rule_engine._clean (Some "  GET%2520/A+B%253Cscript%253E  ")))
  = rule_engine._clean (Some "  GET%2520/A+B%253Cscript%253E  ").
Proof.
  apply (normalize_idempotent (Some "  GET%2520/A+B%253Cscript%253E  ")).
  vm_compute. reflexivity.
Defined.

Example normalize_example :
  rule_engine._clean (Some "  GET%2520/A+B%253Cscript%253E  ") = "get /a b<script>".
Proof. vm_compute. reflexivity. Qed.

(** Beyond the cap the property is lost: six layers of encoding leave an
    escape behind, which a second normalisation decodes. *)
Example normalize_beyond_cap :
  rule_engine._clean (Some "%25252525252541") = "%2541"
  /\ rule_engine._clean (Some "%2541") = "a".
Proof. split; vm_compute; reflexivity. Qed.

(* ===================================================================== *)
(** ** The two extractions of body parameters *)
(* ===================================================================== *)

Lemma is_valid_truthy o : classifier._is_valid o = PyStr.truthy o.
Proof. destruct o as [[|c s]|]; reflexivity. Qed.

Lemma value_lengths_of_strings vals :
  classifier.value_lengths (Py.PList (map Py.PStr vals))
  = inr (map (fun elem => ([String.length elem], "Body")) vals).
Proof.
  unfold classifier.value_lengths.
  induction vals as [|v vals IH]; simpl; [reflexivity|]. now rewrite IH.
Qed.

Lemma body_lengths_of_params d :
  classifier.body_lengths (classifier.of_params d)
  = inr (flat_map (fun kv => map (fun elem => ([String.length elem], "Body")) (snd kv)) d).
Proof.
  unfold classifier.body_lengths, classifier.of_params.
  cbn [Py.items classifier.bind].
  induction d as [|[k vals] d IH]; [reflexivity|].
  cbn [map classifier.for_each fst snd flat_map].
  now rewrite value_lengths_of_strings, IH.
Qed.

Lemma lengths_of_features (d : Dict.dict (list string)) :
  List.concat
    (map fst (flat_map (fun kv => map (fun elem => ([String.length elem], "Body"))
                                      (snd kv)) d))
  = map String.length (List.concat (Dict.values d)).
Proof.
  induction d as [|[k vals] d IH]; simpl; [reflexivity|].
  rewrite map_app, concat_app, IH, map_app. f_equal.
  induction vals as [|v vals IHv]; simpl; congruence.
Qed.

(** On the JSON stage the two extractions part: here a list value, which
    the signature engine measures as the text of [str] and the model path
    element by element. *)
Lemma json_body_lengths_differ :
  signature_body_lengths Json.loads (with_body (Json.text "{'a': ['bc']}")) = [6]
  /\ model_body_lengths Json.loads (with_body (Json.text "{'a': ['bc']}")) = inr [2]
  /\ model_body_lengths Json.loads (with_body (Json.text "{'a': ['bc']}"))
     <> inr (signature_body_lengths Json.loads (with_body (Json.text "{'a': ['bc']}"))).
Proof. split; [|split]; vm_compute; [reflexivity | reflexivity | discriminate]. Qed.

(** They part on string values too: the signature engine decodes the raw
    body, the model path the normalised one. *)
Example string_values_measured_differently :
  signature_body_lengths Json.loads (with_body (Json.text "{'a': 'b  c'}")) = [4]
  /\ model_body_lengths Json.loads (with_body (Json.text "{'a': 'b  c'}")) = inr [3].
Proof. split; vm_compute; reflexivity. Qed.

Lemma set_fresh {V : Type} (k : string) (v : V) (d : Dict.dict V) :
  ~ In k (Dict.keys d) -> Dict.set k v d = (d ++ [(k, v)])%list.
Proof.
  induction d as [|[k' v'] d IH]; simpl; intros Hfresh; [reflexivity|].
  destruct (String.eqb_spec k k') as [->|_]; [tauto|].
  rewrite IH by tauto. reflexivity.
Qed.

Lemma json_params_fold d :
  forall acc : Dict.dict (list string),
    NoDup (Dict.keys acc ++ Dict.keys d) ->
    fold_left (fun params kv => Dict.set (fst kv) [Py.str (snd kv)] params)
              (map (fun kv => (fst kv, Py.PStr (snd kv))) d) acc
    = (acc ++ map (fun kv => (fst kv, [snd kv])) d)%list.
Proof.
  induction d as [|[k v] d IH]; intros acc Hnd; simpl.
  - now rewrite app_nil_r.
  - simpl in Hnd. rewrite set_fresh.
    + rewrite IH.
      * now rewrite <- app_assoc.
      * unfold Dict.keys in *. rewrite map_app, <- app_assoc. exact Hnd.
    + apply NoDup_remove_2 in Hnd. rewrite in_app_iff in Hnd. tauto.
Qed.

Lemma json_params_string_object json_loads raw d :
  NoDup (Dict.keys d) ->
  json_loads raw = Some (string_object d) ->
  rule_engine.json_params json_loads raw = map (fun kv => (fst kv, [snd kv])) d.
Proof.
  intros Hnd Hloads. unfold rule_engine.json_params. rewrite Hloads. simpl.
  now rewrite json_params_fold.
Qed.

Lemma body_lengths_string_object d :
  classifier.body_lengths (string_object d)
  = inr (map (fun kv => ([String.length (snd kv)], "Body")) d).
Proof.
  unfold classifier.body_lengths, string_object. cbn [Py.items classifier.bind].
  induction d as [|[k v] d IH]; [reflexivity|].
  cbn [map classifier.for_each fst snd]. rewrite IH. reflexivity.
Qed.

Lemma string_object_lengths (d : Dict.dict string) :
  List.concat (map fst (map (fun kv => ([String.length (snd kv)], "Body")) d))
  = map String.length
        (List.concat (Dict.values (map (fun kv => (fst kv, [snd kv])) d))).
Proof. induction d as [|[k v] d IH]; simpl; congruence. Qed.

(** C8, amended. The two extractions of body parameters give the same
    candidate lengths on every body that is absent or empty, or whose
    normalised text yields form-encoded parameters, or whose JSON stage
    fails for the raw and for the normalised text alike or decodes both
    to the same object of string values. *)
Theorem body_extractions_agree_on_same_road
        (json_loads : string -> option Py.obj) (req : request.Request) :
  same_road json_loads req ->
  model_body_lengths json_loads req = inr (signature_body_lengths json_loads req).
Proof.
  unfold same_road, model_body_lengths, signature_body_lengths,
    classifier.body_parameters, rule_engine.body_params.
  rewrite is_valid_truthy, (clean_text_is_clean (request.body req)).
  destruct (request.body req) as [[|c b]|] eqn:Hbody; try reflexivity.
  cbn [PyStr.truthy].
  destruct (Dict.nonempty (Urllib.parse_qs (rule_engine._clean (Some (String c b)))))
    eqn:Hform; cbn [negb].
  - intros _. rewrite body_lengths_of_params. simpl.
    now rewrite lengths_of_features.
  - apply nonempty_false in Hform.
    intros [Hno|[Hqs|[(raw & Hraw & Hfail & Hfail')|(raw & d & Hraw & Hnd & Hobj & Hobj')]]].
    + discriminate Hno.
    + contradiction.
    + injection Hraw as <-. unfold rule_engine.json_params.
      rewrite Hfail, Hfail'. reflexivity.
    + injection Hraw as <-.
      rewrite (json_params_string_object json_loads _ d Hnd Hobj), Hobj'.
      rewrite body_lengths_string_object. simpl.
      now rewrite string_object_lengths.
Qed.

Lemma body_extractions_agree_on_same_road_witness :
  model_body_lengths Json.loads
    (with_body (Json.text "{'user': 'alice', 'token': 'abcdefg'}"))
  = inr [5; 7].
Proof.
  rewrite (body_extractions_agree_on_same_road Json.loads
             (with_body (Json.text "{'user': 'alice', 'token': 'abcdefg'}"))).
  - vm_compute. reflexivity.
  - right. right. right.
    exists (Json.text "{'user': 'alice', 'token': 'abcdefg'}"),
           [("user", "alice"); ("token", "abcdefg")].
    split; [reflexivity|]. split.
    + repeat constructor; simpl; intuition discriminate.
    + split; vm_compute; reflexivity.
Defined.

Example body_extractions_agree_on_form :
  model_body_lengths Json.loads (with_body "user=alice&token=abc+def&user=bob")
  = inr [5; 3; 7]
  /\ signature_body_lengths Json.loads (with_body "user=alice&token=abc+def&user=bob")
     = [5; 3; 7].
Proof. split; vm_compute; reflexivity. Qed.

(* ===================================================================== *)
(** ** More on the signature engine *)
(* ===================================================================== *)

Section Signatures.

Lemma SIGNATURES_nodup : NoDup (Dict.keys rule_engine.SIGNATURES).
Proof.
  rewrite SIGNATURES_keys.
  repeat constructor; simpl; intuition discriminate.
Qed.

Lemma get_in {V : Type} (k : string) (v : V) (d : Dict.dict V) :
  Dict.get k d = Some v -> In (k, v) d.
Proof.
  induction d as [|[k' v'] d IH]; simpl; [discriminate|].
  destruct (String.eqb_spec k k') as [->|_].
  - intros H. injection H as ->. now left.
  - intros H. right. auto.
Qed.

Lemma in_keys {V : Type} (k : string) (v : V) (d : Dict.dict V) :
  In (k, v) d -> In k (Dict.keys d).
Proof. intros H. unfold Dict.keys. now apply (in_map fst) in H. Qed.

Lemma empty_no_key {V : Type} (d : Dict.dict V) :
  d = [] <-> forall k, Dict.get k d = None.
Proof.
  split; [intros -> k; reflexivity|].
  destruct d as [|[k v] d]; [reflexivity|]. intros H.
  specialize (H k). simpl in H. rewrite String.eqb_refl in H. discriminate.
Qed.

Lemma match_category_other text location threats entry k :
  fst entry <> k ->
  Dict.get k (rule_engine.match_category text location threats entry)
  = Dict.get k threats.
Proof.
  intros Hne. destruct entry as [threat patterns]. simpl in *.
  destruct (Dict.mem threat threats); [reflexivity|].
  destruct (existsb _ patterns); [|reflexivity].
  apply get_set_other. congruence.
Qed.

Lemma fold_categories_other text location entries k :
  ~ In k (Dict.keys entries) ->
  forall threats,
    Dict.get k (fold_left (rule_engine.match_category text location) entries threats)
    = Dict.get k threats.
Proof.
  induction entries as [|entry entries IH]; intros Hk threats; simpl in *.
  - reflexivity.
  - rewrite IH by tauto. apply match_category_other. tauto.
Qed.

(** One field, one category: a label already there stays, otherwise the
    field is recorded when one of the patterns matches. *)
Lemma fold_categories_own tl entries threat patterns :
  NoDup (Dict.keys entries) ->
  In (threat, patterns) entries ->
  forall threats,
    Dict.get threat
      (fold_left (rule_engine.match_category (fst tl) (snd tl)) entries threats)
    = match Dict.get threat threats with
      | Some location => Some location
      | None => if hits patterns tl then Some (snd tl) else None
      end.
Proof.
  induction entries as [|entry entries IH]; intros Hnd Hin threats; [destruct Hin|].
  simpl in Hnd. inversion Hnd as [|? ? Hfresh Hnd']; subst.
  simpl. destruct Hin as [->|Hin].
  - rewrite fold_categories_other by exact Hfresh.
    simpl. unfold Dict.mem, hits.
    destruct (Dict.get threat threats) as [location|] eqn:Hget.
    + exact Hget.
    + destruct (existsb _ patterns); [apply get_set_same | exact Hget].
  - rewrite (IH Hnd' Hin).
    rewrite match_category_other; [reflexivity|].
    intros Heq. apply Hfresh. rewrite Heq. exact (in_keys _ _ _ Hin).
Qed.

Lemma fold_fields_own fields threat patterns :
  Dict.get threat rule_engine.SIGNATURES = Some patterns ->
  forall threats,
    Dict.get threat (fold_left rule_engine.match_field fields threats)
    = match Dict.get threat threats with
      | Some location => Some location
      | None => first_match patterns fields
      end.
Proof.
  intros Hsig. apply get_in in Hsig.
  induction fields as [|tl fields IH]; intros threats; simpl.
  - unfold first_match. simpl. now destruct (Dict.get threat threats).
  - rewrite IH. unfold rule_engine.match_field.
    rewrite (fold_categories_own tl _ threat patterns SIGNATURES_nodup Hsig).
    unfold first_match. simpl.
    destruct (Dict.get threat threats); [reflexivity|].
    destruct (hits patterns tl); reflexivity.
Qed.

Lemma fold_fields_other fields k :
  ~ In k (Dict.keys rule_engine.SIGNATURES) ->
  forall threats,
    Dict.get k (fold_left rule_engine.match_field fields threats) = Dict.get k threats.
Proof.
  intros Hk. induction fields as [|tl fields IH]; intros threats; simpl; [reflexivity|].
  rewrite IH. unfold rule_engine.match_field. now apply fold_categories_other.
Qed.

Lemma check_lengths_other vlists location k :
  k <> "parameter-tampering" ->
  forall threats,
    Dict.get k (rule_engine.check_lengths vlists location threats) = Dict.get k threats.
Proof.
  intros Hne. induction vlists as [|vlist rest IH]; intros threats; simpl; [reflexivity|].
  destruct (existsb rule_engine.too_long vlist).
  - destruct (Dict.mem _ (Dict.set _ location threats)).
    + now apply get_set_other.
    + rewrite IH. now apply get_set_other.
  - destruct (Dict.mem _ threats); [reflexivity|apply IH].
Qed.

Lemma signature_key_not_tampering threat patterns :
  Dict.get threat rule_engine.SIGNATURES = Some patterns ->
  threat <> "parameter-tampering".
Proof.
  intros Hsig Heq. apply get_in, in_keys in Hsig.
  rewrite SIGNATURES_keys, Heq in Hsig. simpl in Hsig.
  intuition discriminate.
Qed.

(** First hit wins, category by category. *)
Lemma scan_request_category json_loads req threat patterns :
  Dict.get threat rule_engine.SIGNATURES = Some patterns ->
  Dict.get threat (rule_engine.scan_request json_loads req)
  = first_match patterns (rule_engine.to_scan req).
Proof.
  intros Hsig. unfold rule_engine.scan_request.
  rewrite check_lengths_other by exact (signature_key_not_tampering _ _ Hsig).
  unfold rule_engine.signature_matching.
  now rewrite (fold_fields_own _ threat patterns Hsig).
Qed.

Lemma scan_request_unknown_label json_loads req k :
  ~ In k signature_labels -> Dict.get k (rule_engine.scan_request json_loads req) = None.
Proof.
  intros Hk. unfold rule_engine.scan_request.
  rewrite check_lengths_other by (intros ->; apply Hk; simpl; tauto).
  unfold rule_engine.signature_matching. rewrite fold_fields_other; [reflexivity|].
  rewrite SIGNATURES_keys. intros Hin. apply Hk. simpl in *. tauto.
Qed.

Lemma to_scan_locations req tl :
  In tl (rule_engine.to_scan req) -> In (snd tl) known_locations.
Proof.
  unfold rule_engine.to_scan. rewrite !in_app_iff.
  intros [H|[H|H]].
  - destruct (PyStr.truthy (request.request req)); [|destruct H].
    destruct H as [<-|[]]. simpl. tauto.
  - destruct (PyStr.truthy (request.body req)); [|destruct H].
    destruct H as [<-|[]]. simpl. tauto.
  - apply in_flat_map in H. destruct H as [header [Hh Hin]].
    destruct (PyStr.truthy (Dict.get header (request.headers req))); [|destruct Hin].
    destruct Hin as [<-|[]]. simpl in Hh.
    destruct Hh as [<-|[<-|[<-|[<-|[]]]]]; vm_compute; tauto.
Qed.

Lemma first_match_location patterns fields location :
  first_match patterns fields = Some location ->
  exists tl, In tl fields /\ snd tl = location /\ hits patterns tl = true.
Proof.
  unfold first_match. destruct (find (hits patterns) fields) as [tl|] eqn:Hfind;
    [|discriminate].
  simpl. intros H. injection H as <-. apply find_some in Hfind.
  exists tl. tauto.
Qed.

End Signatures.

(** X1. Whatever the request, the signature engine writes only the four
    signature categories and the tampering label, never [valid], and only
    at one of the six known locations. *)
Theorem scan_request_vocabulary
        (json_loads : string -> option Py.obj) (req : request.Request)
        (label location : string) :
  Dict.get label (rule_engine.scan_request json_loads req) = Some location ->
  In label signature_labels /\ label <> "valid" /\ In location known_locations.
Proof.
  intros Hget.
  assert (Hlabel : In label signature_labels).
  { destruct (in_dec string_dec label signature_labels) as [H|H]; [exact H|].
    rewrite (scan_request_unknown_label json_loads req label H) in Hget.
    discriminate. }
  split; [exact Hlabel|]. split.
  - intros ->. simpl in Hlabel. intuition discriminate.
  - simpl in Hlabel.
    destruct Hlabel as [<-|[<-|[<-|[<-|[<-|[]]]]]];
      try (match type of Hget with
           | Dict.get ?k _ = _ =>
               destruct (Dict.get k rule_engine.SIGNATURES) as [patterns|] eqn:Hsig;
               [|vm_compute in Hsig; discriminate Hsig]
           end;
           rewrite (scan_request_category json_loads req _ patterns Hsig) in Hget;
           apply first_match_location in Hget;
           destruct Hget as [tl [Hin [<- _]]];
           exact (to_scan_locations req tl Hin)).
    rewrite scan_request_tampering in Hget.
    destruct (existsb _ _); [|discriminate].
    injection Hget as <-.
    destruct (Dict.nonempty _); simpl; tauto.
Qed.

Lemma scan_request_vocabulary_witness :
  In "cmdi" signature_labels /\ "cmdi" <> "valid" /\ In "Cookie" known_locations.
Proof.
  apply (scan_request_vocabulary Json.loads
           {| request.id := None; request.timestamp := None; request.origin := None;
              request.host := None; request.request := Some "/index";
              request.body := None; request.method := None;
              request.headers := [("Cookie", "sid=1; wget x")];
              request.threats := [] |}).
  vm_compute. reflexivity.
Defined.

(** X2. First hit wins, category by category: the location recorded for
    a signature category is that of the first scanned field (request
    line, body, then the four headers) whose normalised text matches one
    of its patterns, and the category is absent when no field matches.
    The categories do not influence each other. *)
Theorem scan_request_first_hit_wins
        (json_loads : string -> option Py.obj) (req : request.Request)
        (threat : string) (patterns : list Re.regex) :
  Dict.get threat rule_engine.SIGNATURES = Some patterns ->
  Dict.get threat (rule_engine.scan_request json_loads req)
  = first_match patterns (rule_engine.to_scan req).
Proof.
  intros Hsig. unfold rule_engine.scan_request.
  rewrite check_lengths_other by exact (signature_key_not_tampering _ _ Hsig).
  unfold rule_engine.signature_matching.
  rewrite (fold_fields_own _ threat patterns Hsig). reflexivity.
Qed.

Lemma scan_request_first_hit_wins_witness :
  Dict.get "xss"
    (rule_engine.scan_request Json.loads
       (with_request_and_body "/q?x=<script>" "a=1;ls&b=<script>alert(1)"))
  = Some "Request"
  /\
  Dict.get "cmdi"
    (rule_engine.scan_request Json.loads
       (with_request_and_body "/q?x=<script>" "a=1;ls&b=<script>alert(1)"))
  = Some "Body".
Proof.
  split.
  - rewrite (scan_request_first_hit_wins Json.loads
               (with_request_and_body "/q?x=<script>" "a=1;ls&b=<script>alert(1)")
               "xss"
               (map rule_engine.compile
                    ["<\s*script"; "<\s*img\b[^>]*\bonerror\b"; "javascript:\s*";
                     "onload\s*="; "alert\s*\("])).
    + vm_compute. reflexivity.
    + vm_compute. reflexivity.
  - rewrite (scan_request_first_hit_wins Json.loads
               (with_request_and_body "/q?x=<script>" "a=1;ls&b=<script>alert(1)")
               "cmdi"
               (map rule_engine.compile
                    ["(?:;|&&|\|\||\|)\s*\w+"; "`[^`]+`";
                     "\b(cat|ls|rm|wget|curl|whoami|powershell|cmd\.exe|sh)\b"])).
    + vm_compute. reflexivity.
    + vm_compute. reflexivity.
Defined.

(** X3. The signature engine returns the empty mapping, and so hands the
    request to the models, exactly when no scanned field matches any
    pattern of any category and no parameter value has more than 100
    characters. *)
Theorem scan_request_empty_iff
        (json_loads : string -> option Py.obj) (req : request.Request) :
  rule_engine.scan_request json_loads req = []
  <->
  (forall threat patterns,
      Dict.get threat rule_engine.SIGNATURES = Some patterns ->
      first_match patterns (rule_engine.to_scan req) = None)
  /\ existsb rule_engine.too_long (param_values json_loads req) = false.
Proof.
  rewrite empty_no_key. split.
  - intros Hnone. split.
    + intros threat patterns Hsig.
      rewrite <- (scan_request_category json_loads req threat patterns Hsig).
      apply Hnone.
    + specialize (Hnone "parameter-tampering").
      rewrite scan_request_tampering in Hnone.
      destruct (existsb _ _); [discriminate|reflexivity].
  - intros [Hsig Hlen] k.
    destruct (Dict.get k rule_engine.SIGNATURES) as [patterns|] eqn:Hk.
    + rewrite (scan_request_category json_loads req k patterns Hk). eauto.
    + destruct (string_dec k "parameter-tampering") as [->|Hne].
      * rewrite scan_request_tampering, Hlen. reflexivity.
      * apply scan_request_unknown_label. apply get_none_not_key in Hk.
        rewrite SIGNATURES_keys in Hk. simpl in *. intuition congruence.
Qed.

(* ===================================================================== *)
(** ** More on the text normaliser *)
(* ===================================================================== *)

Section NormaliserBounds.
Import PyStr Urllib.

Lemma iter_fixed (n : nat) (x : string) :
  unquote_plus x = x -> Nat.iter n unquote_plus x = x.
Proof. intros H. induction n as [|n IH]; simpl; [reflexivity|]. now rewrite IH. Qed.

Lemma iter_shift (n : nat) (x : string) :
  Nat.iter n unquote_plus (unquote_plus x) = unquote_plus (Nat.iter n unquote_plus x).
Proof. induction n as [|n IH]; simpl; [reflexivity|]. now rewrite IH. Qed.

Lemma unquote_loop_iter (n : nat) :
  forall x, rule_engine.unquote_loop n x = Nat.iter n unquote_plus x.
Proof.
  induction n as [|n IH]; intros x; [reflexivity|].
  cbn [rule_engine.unquote_loop].
  destruct (String.eqb_spec (unquote_plus x) x) as [Hfix|_].
  - symmetry. now apply iter_fixed.
  - rewrite IH, iter_shift. reflexivity.
Qed.

Lemma unquote_plus_length s : String.length (unquote_plus s) <= String.length s.
Proof.
  unfold unquote_plus.
  pose proof (unquote_length (replace_char "+" " " s)) as H.
  now rewrite replace_plus_length in H.
Qed.

Lemma iter_length (n : nat) (x : string) :
  String.length (Nat.iter n unquote_plus x) <= String.length x.
Proof.
  induction n as [|n IH]; simpl; [lia|].
  pose proof (unquote_plus_length (Nat.iter n unquote_plus x)). lia.
Qed.

Lemma lower_length s : String.length (lower s) = String.length s.
Proof. induction s as [|c s IH]; simpl; congruence. Qed.

Lemma join_cons_char c w ws :
  join " " (String c w :: ws) = String c (join " " (w :: ws)).
Proof. destruct ws; reflexivity. Qed.

Lemma append_length (a b : string) :
  String.length (a ++ b) = String.length a + String.length b.
Proof. induction a as [|c a IH]; simpl; congruence. Qed.

(** Collapsing never lengthens; after leading white space it even saves
    a character. *)
Lemma join_split_length s :
  String.length (join " " (split_ws s)) <= String.length s
  /\ (starts_word s = false -> split_ws s <> [] ->
      S (String.length (join " " (split_ws s))) <= String.length s).
Proof.
  induction s as [|c s [IH1 IH2]]; [simpl; split; [lia|congruence]|].
  rewrite split_ws_cons. cbn [starts_word String.length].
  destruct (isspace c) eqn:Hc; cbn [negb].
  - split; [lia|]. intros _ _. lia.
  - split; [|discriminate].
    destruct (starts_word s) eqn:Hs.
    + destruct (split_ws s) as [|w ws]; [simpl; lia|].
      rewrite join_cons_char. cbn [String.length]. lia.
    + destruct (split_ws s) as [|w ws] eqn:Hw; [simpl; lia|].
      specialize (IH2 eq_refl ltac:(discriminate)).
      change (join " " (String c EmptyString :: w :: ws))
        with (String c (String " " (join " " (w :: ws)))).
      cbn [String.length]. lia.
Qed.

Lemma collapse_length s : String.length (collapse s) <= String.length s.
Proof. rewrite collapse_split. apply join_split_length. Qed.

End NormaliserBounds.

(** X4. The early exit of the decoding loop changes nothing: [_unquote]
    is five applications of [unquote_plus], and the loop of [_clean_text]
    computes the same text. *)
Theorem unquote_is_five_rounds (text : string) :
  rule_engine._unquote text = Nat.iter 5 Urllib.unquote_plus text
  /\ classifier.decode_rounds 5 text = Nat.iter 5 Urllib.unquote_plus text.
Proof.
  split.
  - apply unquote_loop_iter.
  - rewrite decode_rounds_unquote_loop. apply unquote_loop_iter.
Qed.

(** X5. Normalising never lengthens a text. *)
Theorem clean_never_longer (text : string) :
  String.length (rule_engine._clean (Some text)) <= String.length text.
Proof.
  rewrite clean_unfold, lower_length.
  pose proof (collapse_length (rule_engine._unquote text)) as Hc.
  unfold rule_engine._unquote in *. rewrite unquote_loop_iter in *.
  pose proof (iter_length 5 text). lia.
Qed.

(** X6. Whatever the input, even one that needs more than five decoding
    rounds, the normalised text is in lower case and made of words
    separated by single spaces, without white space at either end:
    lower-casing it, splitting and joining it again, or stripping it
    gives it back. *)
Theorem clean_normal_form (text : option string) :
  PyStr.lower (rule_engine._clean text) = rule_engine._clean text
  /\ PyStr.join " " (PyStr.split_ws (rule_engine._clean text)) = rule_engine._clean text
  /\ PyStr.join " " (PyStr.split_ws (PyStr.strip (rule_engine._clean text)))
     = rule_engine._clean text.
Proof.
  destruct text as [x|]; [|repeat split].
  rewrite clean_unfold. split; [apply lower_idempotent|].
  assert (H : collapse (PyStr.lower (collapse (rule_engine._unquote x)))
              = PyStr.lower (collapse (rule_engine._unquote x)))
    by now rewrite collapse_lower, collapse_idempotent.
  split; [|exact H]. now rewrite <- collapse_split.
Qed.

(* ===================================================================== *)
(** ** More on the classification pipeline *)
(* ===================================================================== *)

Section Pipeline.
Import classifier.

Variable json_loads : string -> option Py.obj.

(** The model path, spelled out. *)
Lemma classify_request_ml self req :
  rule_engine.scan_request json_loads req = [] ->
  classify_request json_loads self req
  = let tc := text_classification self (map fst (text_features req))
                                  (map snd (text_features req)) [] in
    match length_features json_loads req with
    | inl e =>
        {| out_req := request.set_threats req (fst tc);
           out_calls := snd tc; out_exn := Some e |}
    | inr lengths =>
        let pc := tampering_classification self (map fst lengths)
                                           (map snd lengths) (fst tc) in
        {| out_req :=
             request.set_threats req
               (if negb (Dict.nonempty (fst pc))
                then Dict.set "valid" EmptyString (fst pc) else fst pc);
           out_calls := (snd tc ++ snd pc)%list; out_exn := None |}
    end.
Proof.
  intros Hscan. unfold classify_request. rewrite Hscan. cbn [Dict.nonempty].
  destruct (text_classification self _ _ []) as [threats calls].
  destruct (length_features json_loads req) as [e|lengths]; [reflexivity|].
  cbn [fst snd].
  destruct (tampering_classification self _ _ threats) as [threats' calls'].
  reflexivity.
Qed.

Lemma text_classification_silent self req threats :
  clf_silent self req ->
  fst (text_classification self (map fst (text_features req))
                           (map snd (text_features req)) threats) = threats.
Proof.
  unfold clf_silent, text_classification.
  destruct (map fst (text_features req)) as [|p ps]; [reflexivity|].
  destruct (clf self) as [predict|]; [|reflexivity].
  now intros ->.
Qed.

Lemma tampering_classification_silent self features locations threats :
  pt_clf_silent self ->
  fst (tampering_classification self features locations threats) = threats.
Proof.
  unfold pt_clf_silent, tampering_classification.
  destruct features as [|f fs]; [reflexivity|].
  destruct (pt_clf self) as [predict|]; [|reflexivity].
  intros H. now rewrite H.
Qed.

Lemma body_lengths_empty : body_lengths (Py.PDict []) = inr [].
Proof. reflexivity. Qed.

Lemma no_header_scanned req headers :
  (forall h, In h headers ->
             PyStr.truthy (Dict.get h (request.headers req)) = false) ->
  flat_map
    (fun header =>
       let value := Dict.get header (request.headers req) in
       if PyStr.truthy value
       then [(rule_engine._clean value, PyStr.replace_char "_" " " header)]
       else []) headers = [].
Proof.
  induction headers as [|h hs IH]; intros Hall; [reflexivity|].
  cbn [flat_map]. cbv zeta. rewrite (Hall h (or_introl eq_refl)).
  apply IH. intros x Hx. apply Hall. now right.
Qed.

Lemma blank_to_scan req : blank req = true -> rule_engine.to_scan req = [].
Proof.
  unfold blank. intros H. apply andb_prop in H. destruct H as [H Hh].
  apply andb_prop in H. destruct H as [Hr Hb].
  apply negb_true_iff in Hr, Hb. rewrite forallb_forall in Hh.
  unfold rule_engine.to_scan. rewrite Hr, Hb. cbn [app].
  apply no_header_scanned. intros h Hin. apply negb_true_iff. now apply Hh.
Qed.

Lemma blank_scan req : blank req = true -> rule_engine.scan_request json_loads req = [].
Proof.
  intros Hblank. pose proof (blank_to_scan req Hblank) as Hscan.
  unfold blank in Hblank. apply andb_prop in Hblank. destruct Hblank as [H _].
  apply andb_prop in H. destruct H as [Hr Hb]. apply negb_true_iff in Hr, Hb.
  unfold rule_engine.scan_request, rule_engine.signature_matching,
    rule_engine.query_params, rule_engine.body_params.
  rewrite Hscan.
  destruct (request.request req) as [[|c r]|]; try discriminate Hr;
    destruct (request.body req) as [[|c' b]|]; try discriminate Hb; reflexivity.
Qed.

Lemma blank_features req : blank req = true -> text_features req = [].
Proof.
  unfold blank. intros H. apply andb_prop in H. destruct H as [H Hh].
  apply andb_prop in H. destruct H as [Hr Hb].
  apply negb_true_iff in Hr, Hb. rewrite forallb_forall in Hh.
  unfold text_features, field_feature, header_feature.
  rewrite !is_valid_truthy, Hr, Hb.
  assert (Hheader : forall h, In h rule_engine.scanned_headers ->
                              PyStr.truthy (Dict.get h (request.headers req)) = false).
  { intros h Hin. apply negb_true_iff. now apply Hh. }
  rewrite !Hheader by (simpl; tauto).
  rewrite !andb_false_r. reflexivity.
Qed.

Lemma blank_lengths req : blank req = true -> length_features json_loads req = inr [].
Proof.
  unfold blank. intros H. apply andb_prop in H. destruct H as [H _].
  apply andb_prop in H. destruct H as [Hr Hb].
  apply negb_true_iff in Hr, Hb.
  unfold length_features, body_parameters, request_parameters.
  rewrite !is_valid_truthy, Hr, Hb. reflexivity.
Qed.

End Pipeline.

(** X7. A request without request line, body and scanned headers is
    recorded as [{valid: ''}] without any call to a model, whatever the
    models and the other attributes of the request are. *)
Theorem blank_request_is_valid
        (json_loads : string -> option Py.obj)
        (self : classifier.ThreatClassifier) (req : request.Request) :
  blank req = true ->
  classifier.classify_request json_loads self req
  = {| classifier.out_req := request.set_threats req [("valid", EmptyString)];
       classifier.out_calls := [];
       classifier.out_exn := None |}.
Proof.
  intros Hblank.
  rewrite (classify_request_ml json_loads self req (blank_scan json_loads req Hblank)).
  rewrite (blank_features req Hblank), (blank_lengths json_loads req Hblank).
  reflexivity.
Qed.

Lemma blank_request_is_valid_witness :
  request.threats
    (classifier.out_req
       (classifier.classify_request Json.loads always_valid
          {| request.id := None; request.timestamp := None;
             request.origin := Some "10.0.0.7"; request.host := Some "example.org";
             request.request := Some EmptyString; request.body := None;
             request.method := Some "GET";
             request.headers := [("Accept", "*/*"); ("Cookie", EmptyString)];
             request.threats := [] |}))
  = [("valid", EmptyString)].
Proof.
  rewrite blank_request_is_valid; reflexivity.
Defined.

(** X8. Models that are missing or raise contribute nothing: the request
    and the exception that result are those obtained with no model at
    all, and a request without signature evidence that is classified
    without error ends as [{valid: ''}]. *)
Theorem silent_models_mean_valid
        (json_loads : string -> option Py.obj)
        (self : classifier.ThreatClassifier) (req : request.Request) :
  clf_silent self req ->
  pt_clf_silent self ->
  classifier.out_req (classifier.classify_request json_loads self req)
  = classifier.out_req (classifier.classify_request json_loads no_models req)
  /\
  classifier.out_exn (classifier.classify_request json_loads self req)
  = classifier.out_exn (classifier.classify_request json_loads no_models req)
  /\
  (rule_engine.scan_request json_loads req = [] ->
   classifier.out_exn (classifier.classify_request json_loads self req) = None ->
   request.threats (classifier.out_req (classifier.classify_request json_loads self req))
   = [("valid", EmptyString)]).
Proof.
  intros Hclf Hpt.
  destruct (rule_engine.scan_request json_loads req) as [|entry rest] eqn:Hscan.
  - rewrite !(classify_request_ml json_loads _ req Hscan). cbn zeta.
    rewrite (text_classification_silent self req [] Hclf).
    rewrite (text_classification_silent no_models req [] I).
    destruct (classifier.length_features json_loads req) as [e|lengths].
    + cbn. repeat split. discriminate.
    + rewrite (tampering_classification_silent self _ _ [] Hpt).
      rewrite (tampering_classification_silent no_models _ _ [] I).
      cbn. repeat split.
  - unfold classifier.classify_request. rewrite Hscan. cbn.
    repeat split. discriminate.
Qed.

Lemma silent_models_mean_valid_witness :
  request.threats
    (classifier.out_req
       (classifier.classify_request Json.loads
          {| classifier.clf := Some (fun _ => None);
             classifier.pt_clf := None |}
          (with_request "GET /search?q=hello")))
  = [("valid", EmptyString)].
Proof.
  apply (silent_models_mean_valid Json.loads
           {| classifier.clf := Some (fun _ => None); classifier.pt_clf := None |}
           (with_request "GET /search?q=hello")).
  - reflexivity.
  - exact I.
  - vm_compute. reflexivity.
  - vm_compute. reflexivity.
Defined.

Lemma get_some_key {V : Type} (k : string) (v : V) (d : Dict.dict V) :
  Dict.get k d = Some v -> In k (Dict.keys d).
Proof. intros H. exact (in_keys k v d (get_in k v d H)). Qed.

(** X9. [valid] never stands beside another label: when [classify_request]
    returns, a threat map that holds [valid] is exactly [{valid: ''}],
    even if a model answers [valid] for some inputs and threats for
    others. *)
Theorem valid_stands_alone
        (json_loads : string -> option Py.obj)
        (self : classifier.ThreatClassifier) (req : request.Request)
        (location : string) :
  classifier.out_exn (classifier.classify_request json_loads self req) = None ->
  Dict.get "valid"
    (request.threats (classifier.out_req (classifier.classify_request json_loads self req)))
  = Some location ->
  request.threats (classifier.out_req (classifier.classify_request json_loads self req))
  = [("valid", EmptyString)].
Proof.
  destruct (rule_engine.scan_request json_loads req) as [|entry rest] eqn:Hscan.
  - rewrite (classify_request_ml json_loads self req Hscan). cbn zeta.
    pose proof (fun label => text_classification_keys self req [] label) as Htext.
    destruct (classifier.text_classification self _ _ []) as [threats1 calls].
    cbn [fst snd] in *.
    destruct (classifier.length_features json_loads req) as [e|lengths] eqn:Hlen;
      [discriminate|].
    pose proof (fun label =>
                  tampering_classification_keys json_loads self req lengths
                    threats1 label Hlen) as Hpt.
    destruct (classifier.tampering_classification self _ _ threats1)
      as [threats2 pt_calls].
    cbn [fst snd] in *. intros _.
    destruct threats2 as [|kv threats2]; [intros _; reflexivity|].
    cbn [Dict.nonempty negb classifier.out_req request.threats request.set_threats].
    intros Hget. apply get_some_key in Hget.
    destruct (Hpt _ Hget) as [H1|[H1 _]]; [|congruence].
    destruct (Htext _ H1) as [[]|[H2 _]]. congruence.
  - assert (Hhit : rule_engine.scan_request json_loads req <> [])
      by (rewrite Hscan; discriminate).
    rewrite (classify_request_on_hit json_loads self req Hhit).
    cbn [classifier.out_exn classifier.out_req request.threats request.set_threats].
    intros _ Hget.
    rewrite (scan_request_unknown_label json_loads req "valid") in Hget;
      [discriminate|].
    simpl. intuition discriminate.
Qed.

Lemma valid_stands_alone_witness :
  request.threats
    (classifier.out_req
       (classifier.classify_request Json.loads always_valid
          (with_request_and_body "/login" "user=alice&pw=secret")))
  = [("valid", EmptyString)].
Proof.
  apply (valid_stands_alone Json.loads always_valid
           (with_request_and_body "/login" "user=alice&pw=secret") EmptyString).
  - vm_compute. reflexivity.
  - vm_compute. reflexivity.
Defined.


(** X11. [classify_request] returns without an exception, whatever the
    models do, for every request whose body is absent or empty, or yields
    form-encoded parameters once normalised, or is not decodable as JSON
    once normalised. *)
Theorem classify_request_returns
        (json_loads : string -> option Py.obj)
        (self : classifier.ThreatClassifier) (req : request.Request) :
  PyStr.truthy (request.body req) = false
  \/ Urllib.parse_qs (classifier._clean_text (request.body req)) <> []
  \/ json_loads (classifier._clean_text (request.body req)) = None ->
  classifier.out_exn (classifier.classify_request json_loads self req) = None.
Proof.
  intros Hbody.
  assert (Hlen : exists lengths, classifier.length_features json_loads req = inr lengths).
  { unfold classifier.length_features, classifier.body_parameters.
    rewrite is_valid_truthy.
    destruct (PyStr.truthy (request.body req)); [|eexists; reflexivity].
    destruct (Dict.nonempty (Urllib.parse_qs (classifier._clean_text (request.body req))))
      eqn:Hform; cbn [negb].
    - rewrite body_lengths_of_params. eexists. reflexivity.
    - apply nonempty_false in Hform.
      destruct Hbody as [Hb|[Hq|Hj]]; [discriminate|contradiction|].
      rewrite Hj. eexists. reflexivity. }
  destruct Hlen as [lengths Hlen].
  destruct (rule_engine.scan_request json_loads req) as [|entry rest] eqn:Hscan.
  - rewrite (classify_request_ml json_loads self req Hscan). cbn zeta.
    rewrite Hlen. reflexivity.
  - assert (Hhit : rule_engine.scan_request json_loads req <> [])
      by (rewrite Hscan; discriminate).
    now rewrite (classify_request_on_hit json_loads self req Hhit).
Qed.

Lemma classify_request_returns_witness :
  classifier.out_exn
    (classifier.classify_request Json.loads
       {| classifier.clf := Some (fun _ => None);
          classifier.pt_clf := Some (fun _ => Some ["parameter-tampering"]) |}
       (with_body "{not json")) = None.
Proof.
  apply classify_request_returns.
  right. right. vm_compute. reflexivity.
Defined.

Lemma record_predictions_get predictions locations p :
  p <> "valid" ->
  forall idx threats,
    idx + List.length predictions <= List.length locations ->
    Dict.get p (classifier.record_predictions idx predictions locations threats)
    = match last_index p predictions with
      | Some i => nth_error locations (idx + i)
      | None => Dict.get p threats
      end.
Proof.
  intros Hp. induction predictions as [|pred rest IH]; intros idx threats Hlen.
  - reflexivity.
  - cbn [classifier.record_predictions last_index]. simpl List.length in Hlen.
    destruct (String.eqb_spec pred "valid") as [->|Hvalid].
    + rewrite IH by lia.
      destruct (last_index p rest) as [i|].
      * f_equal. lia.
      * destruct (String.eqb_spec "valid" p); [congruence|reflexivity].
    + destruct (nth_error locations idx) as [location|] eqn:Hloc.
      * rewrite IH by lia.
        destruct (last_index p rest) as [i|]; [f_equal; lia|].
        destruct (String.eqb_spec pred p) as [->|Hne].
        -- rewrite get_set_same, Nat.add_0_r. now symmetry.
        -- apply get_set_other. congruence.
      * apply nth_error_None in Hloc. lia.
Qed.

(** X12. Last write wins: when a model answers at most one label per
    input, a label other than [valid] is recorded at the location of the
    last input for which it was answered, and a label that was not
    answered keeps what the map held. *)
Theorem last_prediction_wins
        (predictions locations : list string) (threats : Dict.dict string)
        (p : string) :
  p <> "valid" ->
  List.length predictions <= List.length locations ->
  Dict.get p (classifier.record_predictions 0 predictions locations threats)
  = match last_index p predictions with
    | Some i => nth_error locations i
    | None => Dict.get p threats
    end.
Proof.
  intros Hp Hlen.
  exact (record_predictions_get predictions locations p Hp 0 threats Hlen).
Qed.

Lemma last_prediction_wins_witness :
  Dict.get "xss"
    (classifier.record_predictions 0 ["xss"; "valid"; "xss"; "sqli"]
       ["Request"; "Body"; "Cookie"; "User Agent"] [])
  = Some "Cookie".
Proof.
  rewrite last_prediction_wins.
  - reflexivity.
  - discriminate.
  - simpl. lia.
Defined.

(** The same at the level of a request: the text model flags the same
    label for the request line and the cookie, the cookie is recorded. *)
Example repeated_label_recorded_last :
  request.threats
    (classifier.out_req
       (classifier.classify_request Json.loads
          {| classifier.clf := Some (fun l => Some (map (fun _ => "xss") l));
             classifier.pt_clf := None |}
          {| request.id := None; request.timestamp := None; request.origin := None;
             request.host := None; request.request := Some "/home";
             request.body := None; request.method := None;
             request.headers := [("Cookie", "theme=dark")];
             request.threats := [] |}))
  = [("xss", "Cookie")].
Proof. vm_compute. reflexivity. Qed.

(* ===================================================================== *)
(** ** More on the request entity and the audit store *)
(* ===================================================================== *)

Section Snapshot.

Lemma fold_set_get (headers : Dict.dict string) (k : string) :
  NoDup (Dict.keys headers) ->
  forall out : Dict.dict string,
    Dict.get k (fold_left (fun out hv => Dict.set (fst hv) (snd hv) out) headers out)
    = match Dict.get k headers with
      | Some v => Some v
      | None => Dict.get k out
      end.
Proof.
  induction headers as [|[k0 v0] headers IH]; intros Hnd out; [reflexivity|].
  simpl in Hnd. inversion Hnd as [|? ? Hfresh Hnd']; subst.
  cbn [fold_left fst snd Dict.get]. rewrite (IH Hnd').
  destruct (String.eqb_spec k k0) as [->|Hne].
  - apply get_none_not_key in Hfresh. rewrite Hfresh. apply get_set_same.
  - destruct (Dict.get k headers); [reflexivity|]. now apply get_set_other.
Qed.

End Snapshot.

(** X13. The snapshot [to_json] holds every header under its own name
    and value, a header named [request] or [body] taking the place of the
    field of that name; the request line and the body appear only when
    they are not empty, and nothing else appears. *)
Theorem to_json_lookup (self : request.Request) (k : string) :
  NoDup (Dict.keys (request.headers self)) ->
  Dict.get k (request.to_json self)
  = match Dict.get k (request.headers self) with
    | Some v => Some v
    | None => own_field self k
    end.
Proof.
  intros Hnd. unfold request.to_json. rewrite (fold_set_get _ k Hnd).
  destruct (Dict.get k (request.headers self)); [reflexivity|].
  unfold own_field.
  destruct (request.request self) as [[|c r]|];
    destruct (request.body self) as [[|c' b]|]; cbn;
    destruct (String.eqb k "request") eqn:E1;
    destruct (String.eqb k "body") eqn:E2; try reflexivity;
    apply String.eqb_eq in E1; apply String.eqb_eq in E2; congruence.
Qed.

Lemma to_json_lookup_witness :
  Dict.get "body"
    (request.to_json
       {| request.id := None; request.timestamp := None; request.origin := None;
          request.host := None; request.request := Some "/upload";
          request.body := Some "a=1"; request.method := Some "POST";
          request.headers := [("Cookie", "sid=9"); ("body", "shadow")];
          request.threats := [] |})
  = Some "shadow".
Proof.
  rewrite to_json_lookup.
  - reflexivity.
  - repeat constructor; simpl; intuition discriminate.
Defined.

Section StoreMore.
Import DBController.

Lemma save_threat_rows self now obj :
  threats (fst (save self now obj))
  = (threats self ++ threat_rows (lastrowid (logs self)) (request.threats obj))%list.
Proof. unfold save. cbn [fst threats]. apply threat_rows_appended. Qed.

Lemma save_log_rows self now obj :
  logs (fst (save self now obj))
  = (logs self ++ [{| log_id := lastrowid (logs self);
                      log_timestamp := Some now;
                      log_origin := request.origin obj;
                      log_host := request.host obj;
                      log_method := request.method obj |}])%list.
Proof. reflexivity. Qed.

Lemma filter_threat_rows_same id entries :
  filter (fun t => Z.eqb id (threat_log_id t)) (threat_rows id entries)
  = threat_rows id entries.
Proof.
  induction entries as [|tl entries IH]; [reflexivity|].
  simpl. rewrite Z.eqb_refl. now rewrite IH.
Qed.

Lemma filter_threat_rows_other id id' entries :
  id' <> id ->
  filter (fun t => Z.eqb id' (threat_log_id t)) (threat_rows id entries) = [].
Proof.
  intros Hne. induction entries as [|tl entries IH]; [reflexivity|].
  simpl. destruct (Z.eqb_spec id' id); [contradiction|exact IH].
Qed.

Lemma threat_rows_entries id entries (l : log_row) :
  map _create_single_entry (map (fun t => (l, t)) (threat_rows id entries)) = entries.
Proof.
  induction entries as [|[k v] entries IH]; [reflexivity|].
  simpl. now rewrite IH.
Qed.

(** Reading back what was just saved. *)
Lemma read_after_save self now obj :
  references_ok self = true ->
  read_request (fst (save self now obj)) (lastrowid (logs self))
  = (match request.threats obj with
     | [] => None
     | _ :: _ => Some {| meta_timestamp := Some now;
                         meta_origin := request.origin obj;
                         meta_host := request.host obj;
                         meta_method := request.method obj |}
     end,
     request.threats obj).
Proof.
  intros Hok. unfold read_request, joined.
  rewrite save_threat_rows, save_log_rows.
  rewrite filter_app, no_old_log_row. cbn [filter log_id app].
  rewrite Z.eqb_refl. cbn [flat_map log_id].
  rewrite filter_app, (no_old_threat_row self Hok), filter_threat_rows_same.
  cbn [app]. rewrite app_nil_r, threat_rows_entries.
  destruct (request.threats obj) as [|tl entries]; reflexivity.
Qed.

(** The joined rows of the requests already stored are untouched. *)
Lemma old_rows_kept self id' entries (rows : list log_row) :
  (forall l, In l rows -> log_id l <> id') ->
  flat_map
    (fun l => map (fun t => (l, t))
                  (filter (fun t => Z.eqb (log_id l) (threat_log_id t))
                          (threats self ++ threat_rows id' entries)%list))
    rows
  = flat_map
      (fun l => map (fun t => (l, t))
                    (filter (fun t => Z.eqb (log_id l) (threat_log_id t))
                            (threats self)))
      rows.
Proof.
  induction rows as [|l rows IH]; intros Hall; [reflexivity|].
  cbn [flat_map]. rewrite IH by (intros x Hx; apply Hall; now right).
  rewrite filter_app, filter_threat_rows_other by (apply Hall; now left).
  now rewrite app_nil_r.
Qed.

Lemma old_ids_differ self l :
  In l (logs self) -> log_id l <> lastrowid (logs self).
Proof. intros Hin. pose proof (lastrowid_above (logs self) l Hin). lia. Qed.

End StoreMore.

(** X14. Round trip for any threat map: on a store whose threat rows all
    belong to stored requests, reading back a request just saved yields
    its threat pairs in the order of the map, with the saved timestamp,
    origin, host and method; a request saved with an empty threat map
    reads back as nothing at all, metadata included. *)
Theorem save_then_read_request
        (self : DBController.store) (now : request.datetime) (obj : request.Request) :
  DBController.references_ok self = true ->
  exists id : Z,
    request.id (snd (DBController.save self now obj)) = Some id /\
    DBController.read_request (fst (DBController.save self now obj)) id
    = (match request.threats obj with
       | [] => None
       | _ :: _ =>
           Some {| DBController.meta_timestamp := Some now;
                   DBController.meta_origin := request.origin obj;
                   DBController.meta_host := request.host obj;
                   DBController.meta_method := request.method obj |}
       end,
       request.threats obj).
Proof.
  intros Hok. exists (DBController.lastrowid (DBController.logs self)).
  split; [reflexivity|]. now apply read_after_save.
Qed.

Lemma save_then_read_request_witness :
  exists id : Z,
    DBController.read_request
      (fst (DBController.save DBController.empty "2024-05-01 12:00:00.000000"
              (with_request "/plain"))) id
    = (None, []).
Proof.
  destruct (save_then_read_request DBController.empty "2024-05-01 12:00:00.000000"
              (with_request "/plain")) as [id [_ H]].
  - reflexivity.
  - exists id. exact H.
Defined.

(** X15. Saving a request leaves every other record as it was: reading
    any identifier other than the one just assigned gives the same answer
    before and after [save]. *)
Theorem save_keeps_other_records
        (self : DBController.store) (now : request.datetime) (obj : request.Request)
        (id : Z) :
  request.id (snd (DBController.save self now obj)) <> Some id ->
  DBController.read_request (fst (DBController.save self now obj)) id
  = DBController.read_request self id.
Proof.
  intros Hid.
  assert (Hne : DBController.lastrowid (DBController.logs self) <> id)
    by (intros Heq; apply Hid; cbn; now rewrite Heq).
  unfold DBController.read_request, DBController.joined.
  rewrite save_threat_rows, save_log_rows, filter_app.
  cbn [filter DBController.log_id].
  destruct (Z.eqb_spec (DBController.lastrowid (DBController.logs self)) id);
    [contradiction|].
  rewrite app_nil_r, old_rows_kept; [reflexivity|].
  intros l Hin. apply filter_In in Hin. destruct Hin as [Hin _].
  now apply old_ids_differ.
Qed.

Lemma save_keeps_other_records_witness :
  DBController.read_request
    (fst (DBController.save
            (fst (DBController.save DBController.empty "2024-05-01 12:00:00.000000"
                    (request.set_threats (with_request "/a") [("sqli", "Request")])))
            "2024-05-01 12:00:01.000000"
            (request.set_threats (with_request "/b") [("xss", "Body")]))) 1%Z
  = (Some {| DBController.meta_timestamp := Some "2024-05-01 12:00:00.000000";
             DBController.meta_origin := None; DBController.meta_host := None;
             DBController.meta_method := None |},
     [("sqli", "Request")]).
Proof.
  rewrite save_keeps_other_records.
  - reflexivity.
  - cbn. discriminate.
Defined.

(** X16. [save] keeps the store consistent: identifiers stay unique and
    every threat row still belongs to a stored request. *)
Theorem save_keeps_store_consistent
        (self : DBController.store) (now : request.datetime) (obj : request.Request) :
  NoDup (map DBController.log_id (DBController.logs self)) ->
  DBController.references_ok self = true ->
  NoDup (map DBController.log_id
             (DBController.logs (fst (DBController.save self now obj))))
  /\ DBController.references_ok (fst (DBController.save self now obj)) = true.
Proof.
  intros Hnd Hok. split.
  - rewrite save_log_rows, map_app. cbn [map DBController.log_id].
    apply NoDup_app.
    + exact Hnd.
    + repeat constructor. simpl. tauto.
    + intros x Hx [Heq|[]]. apply in_map_iff in Hx.
      destruct Hx as [l [Hl Hin]].
      apply (old_ids_differ self l Hin). congruence.
  - unfold DBController.references_ok in *.
    rewrite save_threat_rows, save_log_rows, forallb_app.
    apply andb_true_intro. split.
    + rewrite forallb_forall in *. intros t Hin.
      rewrite existsb_app, (Hok t Hin). reflexivity.
    + rewrite forallb_forall. intros t Hin. apply in_map_iff in Hin.
      destruct Hin as [tl [<- _]].
      rewrite existsb_app. cbn. rewrite Z.eqb_refl. now rewrite orb_true_r.
Qed.

Lemma save_keeps_store_consistent_witness :
  DBController.references_ok
    (fst (DBController.save DBController.empty "2024-05-01 12:00:00.000000"
            (request.set_threats (with_request "/a") [("sqli", "Request")]))) = true.
Proof.
  apply (save_keeps_store_consistent DBController.empty "2024-05-01 12:00:00.000000"
           (request.set_threats (with_request "/a") [("sqli", "Request")])).
  - constructor.
  - reflexivity.
Defined.

(** X17. An identifier that no stored request carries reads back as the
    empty dictionary and no threat pair. *)
Theorem read_request_missing (self : DBController.store) (id : Z) :
  ~ In id (map DBController.log_id (DBController.logs self)) ->
  DBController.read_request self id = (None, []).
Proof.
  intros Hmissing. unfold DBController.read_request, DBController.joined.
  assert (H : filter (fun l => Z.eqb (DBController.log_id l) id)
                     (DBController.logs self) = []).
  { induction (DBController.logs self) as [|l rows IH]; [reflexivity|].
    simpl in *. destruct (Z.eqb_spec (DBController.log_id l) id) as [Heq|_].
    - tauto.
    - apply IH. tauto. }
  rewrite H. reflexivity.
Qed.

Lemma read_request_missing_witness :
  DBController.read_request
    (fst (DBController.save DBController.empty "2024-05-01 12:00:00.000000"
            (request.set_threats (with_request "/a") [("sqli", "Request")]))) 7%Z
  = (None, []).
Proof.
  apply read_request_missing. cbn. intros [H|[]]. discriminate H.
Defined.

(** X18. [read_all] after [save]: on a consistent store the rows already
    there are unchanged and the saved request adds one row per entry of
    its threat map, in order, each with the metadata of the request and
    the link to its review page; a request without threats adds no row. *)
Theorem read_all_after_save
        (self : DBController.store) (now : request.datetime) (obj : request.Request) :
  DBController.references_ok self = true ->
  DBController.read_all (fst (DBController.save self now obj))
  = (DBController.read_all self ++
     map (fun tl =>
            {| DBController.entry_log :=
                 {| DBController.log_id := DBController.lastrowid (DBController.logs self);
                    DBController.log_timestamp := Some now;
                    DBController.log_origin := request.origin obj;
                    DBController.log_host := request.host obj;
                    DBController.log_method := request.method obj |};
               DBController.entry_threat :=
                 {| DBController.threat_log_id :=
                      DBController.lastrowid (DBController.logs self);
                    DBController.threat_type := fst tl;
                    DBController.location := snd tl |};
               DBController.Link :=
                 "[Review](http://127.0.0.1:8050/review/"
                 ++ Py.string_of_Z (DBController.lastrowid (DBController.logs self))
                 ++ ")" |})
         (request.threats obj))%list.
Proof.
  intros Hok. unfold DBController.read_all, DBController.joined_all.
  rewrite save_threat_rows, save_log_rows, flat_map_app, map_app.
  rewrite old_rows_kept by (intros l Hin; now apply old_ids_differ).
  f_equal. cbn [flat_map DBController.log_id].
  rewrite filter_app, (no_old_threat_row self Hok), filter_threat_rows_same.
  cbn [app]. rewrite app_nil_r. unfold threat_rows. rewrite !map_map.
  reflexivity.
Qed.

Lemma read_all_after_save_witness :
  List.length
    (DBController.read_all
       (fst (DBController.save DBController.empty "2024-05-01 12:00:00.000000"
               (request.set_threats (with_request "/a")
                  [("sqli", "Request"); ("xss", "Body"); ("cmdi", "Cookie")]))))
  = 3.
Proof.
  rewrite read_all_after_save; reflexivity.
Defined.

Lemma classify_request_frame json_loads self req :
  classifier.out_req (classifier.classify_request json_loads self req)
  = request.set_threats req
      (request.threats
         (classifier.out_req (classifier.classify_request json_loads self req))).
Proof.
  unfold classifier.classify_request.
  destruct (Dict.nonempty (rule_engine.scan_request json_loads req)); [reflexivity|].
  destruct (classifier.text_classification self _ _ []) as [threats calls].
  destruct (classifier.length_features json_loads req) as [e|lengths]; [reflexivity|].
  destruct (classifier.tampering_classification self _ _ threats) as [threats' calls'].
  reflexivity.
Qed.

Lemma classified_nonempty json_loads self req :
  classifier.out_exn (classifier.classify_request json_loads self req) = None ->
  request.threats (classifier.out_req (classifier.classify_request json_loads self req))
  <> [].
Proof.
  unfold classifier.classify_request.
  destruct (Dict.nonempty (rule_engine.scan_request json_loads req)) eqn:Hscan.
  - intros _. now apply nonempty_true in Hscan.
  - destruct (classifier.text_classification self _ _ []) as [threats calls].
    destruct (classifier.length_features json_loads req) as [e|lengths];
      [discriminate|].
    destruct (classifier.tampering_classification self _ _ threats) as [threats' calls'].
    intros _. cbn. destruct threats'; cbn; discriminate.
Qed.

(** X19. [classify_request] writes the threat map and nothing else:
    identifier, timestamp, origin, host, request line, body, method and
    headers of the request are as before, also when the call raises. *)
Theorem classify_request_changes_threats_only
        (json_loads : string -> option Py.obj)
        (self : classifier.ThreatClassifier) (req : request.Request) :
  let classified := classifier.out_req (classifier.classify_request json_loads self req) in
  request.id classified = request.id req /\
  request.timestamp classified = request.timestamp req /\
  request.origin classified = request.origin req /\
  request.host classified = request.host req /\
  request.request classified = request.request req /\
  request.body classified = request.body req /\
  request.method classified = request.method req /\
  request.headers classified = request.headers req.
Proof.
  cbv zeta. rewrite classify_request_frame. repeat split.
Qed.

(** X20. The sniffer's chain, classify then save: a request that is
    classified without error and saved on a consistent store reads back
    under its new identifier with a non-empty list of threat pairs, the
    very map the classification wrote, and with the origin, host and
    method it arrived with. *)
Theorem classified_request_reads_back
        (json_loads : string -> option Py.obj)
        (threat_clf : classifier.ThreatClassifier) (db : DBController.store)
        (now : request.datetime) (req : request.Request) :
  classifier.out_exn (classifier.classify_request json_loads threat_clf req) = None ->
  DBController.references_ok db = true ->
  let classified :=
    classifier.out_req (classifier.classify_request json_loads threat_clf req) in
  exists id : Z,
    request.id (snd (DBController.save db now classified)) = Some id /\
    request.threats classified <> [] /\
    DBController.read_request (fst (DBController.save db now classified)) id
    = (Some {| DBController.meta_timestamp := Some now;
               DBController.meta_origin := request.origin req;
               DBController.meta_host := request.host req;
               DBController.meta_method := request.method req |},
       request.threats classified).
Proof.
  intros Hexn Hok classified.
  pose proof (classified_nonempty json_loads threat_clf req Hexn) as Hne.
  fold classified in Hne.
  exists (DBController.lastrowid (DBController.logs db)).
  split; [reflexivity|]. split; [exact Hne|].
  rewrite (read_after_save db now classified Hok).
  destruct (request.threats classified) as [|tl rest] eqn:Hthreats; [contradiction|].
  unfold classified. rewrite classify_request_frame. reflexivity.
Qed.

Lemma classified_request_reads_back_witness :
  exists id : Z,
    DBController.read_request
      (fst (DBController.save DBController.empty "2024-05-01 12:00:00.000000"
              (classifier.out_req
                 (classifier.classify_request Json.loads always_valid
                    (with_request "/page?name=<script>x</script>"))))) id
    = (Some {| DBController.meta_timestamp := Some "2024-05-01 12:00:00.000000";
               DBController.meta_origin := None; DBController.meta_host := None;
               DBController.meta_method := None |},
       [("xss", "Request")]).
Proof.
  destruct (classified_request_reads_back Json.loads always_valid DBController.empty
              "2024-05-01 12:00:00.000000"
              (with_request "/page?name=<script>x</script>"))
    as [id [_ [_ H]]].
  - vm_compute. reflexivity.
  - reflexivity.
  - exists id. rewrite H. vm_compute. reflexivity.
Defined.

(* ===================================================================== *)
(** ** What the two phases look at *)
(* ===================================================================== *)

Section Inputs.

Lemma header_feature_scanned req header :
  classifier.header_feature req header (PyStr.replace_char "_" " " header)
  = (let value := Dict.get header (request.headers req) in
     if PyStr.truthy value
     then [(rule_engine._clean value, PyStr.replace_char "_" " " header)] else []).
Proof.
  unfold classifier.header_feature, Dict.mem. cbv zeta.
  rewrite is_valid_truthy, clean_text_is_clean.
  now destruct (Dict.get header (request.headers req)) as [[|c v]|].
Qed.

Lemma field_feature_scanned value location :
  classifier.field_feature value location
  = if PyStr.truthy value then [(rule_engine._clean value, location)] else [].
Proof.
  unfold classifier.field_feature. now rewrite is_valid_truthy, clean_text_is_clean.
Qed.

Lemma text_features_to_scan req :
  classifier.text_features req = rule_engine.to_scan req.
Proof.
  unfold classifier.text_features, rule_engine.to_scan.
  rewrite !field_feature_scanned.
  change "Cookie" with (PyStr.replace_char "_" " " "Cookie") at 2.
  change "User Agent" with (PyStr.replace_char "_" " " "User_Agent").
  change "Accept Encoding" with (PyStr.replace_char "_" " " "Accept_Encoding").
  change "Accept Language" with (PyStr.replace_char "_" " " "Accept_Language").
  rewrite !header_feature_scanned.
  unfold rule_engine.scanned_headers. cbn [flat_map]. cbv zeta.
  now rewrite app_nil_r.
Qed.

Lemma request_parameters_query_params req :
  classifier.request_parameters req = rule_engine.query_params req.
Proof.
  unfold classifier.request_parameters, rule_engine.query_params.
  rewrite is_valid_truthy, clean_text_is_clean.
  now destruct (request.request req) as [[|c r]|].
Qed.

Lemma to_scan_same a b : same_scanned a b -> rule_engine.to_scan a = rule_engine.to_scan b.
Proof.
  intros [Hr [Hb Hh]]. unfold rule_engine.to_scan. rewrite Hr, Hb.
  do 2 f_equal.
  induction rule_engine.scanned_headers as [|h hs IH]; [reflexivity|].
  cbn [flat_map]. cbv zeta. rewrite (Hh h (or_introl eq_refl)). f_equal.
  apply IH. intros x Hx. apply Hh. now right.
Qed.

Lemma scan_request_same json_loads a b :
  same_scanned a b ->
  rule_engine.scan_request json_loads a = rule_engine.scan_request json_loads b.
Proof.
  intros Hsame. pose proof (to_scan_same a b Hsame) as Hscan.
  destruct Hsame as [Hr [Hb _]].
  unfold rule_engine.scan_request, rule_engine.signature_matching,
    rule_engine.query_params, rule_engine.body_params.
  now rewrite Hscan, Hr, Hb.
Qed.

Lemma length_features_same json_loads a b :
  same_scanned a b ->
  classifier.length_features json_loads a = classifier.length_features json_loads b.
Proof.
  intros [Hr [Hb _]].
  unfold classifier.length_features, classifier.body_parameters,
    classifier.request_parameters.
  now rewrite Hr, Hb.
Qed.

End Inputs.

(** X21. For any number of parameters, the signature engine writes
    [parameter-tampering] exactly when some value of the query or of the
    body has more than 100 characters. *)
Theorem tampering_iff_some_value_too_long
        (json_loads : string -> option Py.obj) (req : request.Request) :
  Dict.mem "parameter-tampering" (rule_engine.scan_request json_loads req)
  = existsb (fun v => Nat.ltb 100 (String.length v)) (param_values json_loads req).
Proof.
  unfold Dict.mem. rewrite scan_request_tampering.
  change (fun v => Nat.ltb 100 (String.length v)) with rule_engine.too_long.
  now destruct (existsb rule_engine.too_long (param_values json_loads req)).
Qed.

(** X22. The two phases look at the same material: the texts and
    locations handed to the text model are exactly the fields the
    signature engine scans, and the query parameters measured by the
    tampering model are those the signature engine measures. *)
Theorem phases_share_inputs (req : request.Request) :
  classifier.text_features req = rule_engine.to_scan req
  /\ classifier.request_parameters req = rule_engine.query_params req.
Proof.
  split.
  - apply text_features_to_scan.
  - apply request_parameters_query_params.
Qed.

(** X23. Only the request line, the body and the headers [Cookie],
    [User_Agent], [Accept_Encoding] and [Accept_Language] count: two
    requests that agree on them get the same mapping from the signature
    engine, and from [classify_request] the same threat map, the same
    calls to the models and the same exception, whatever their other
    headers, origin, host and method are. *)
Theorem only_scanned_parts_count
        (json_loads : string -> option Py.obj)
        (self : classifier.ThreatClassifier) (a b : request.Request) :
  same_scanned a b ->
  rule_engine.scan_request json_loads a = rule_engine.scan_request json_loads b
  /\ request.threats (classifier.out_req (classifier.classify_request json_loads self a))
     = request.threats (classifier.out_req (classifier.classify_request json_loads self b))
  /\ classifier.out_calls (classifier.classify_request json_loads self a)
     = classifier.out_calls (classifier.classify_request json_loads self b)
  /\ classifier.out_exn (classifier.classify_request json_loads self a)
     = classifier.out_exn (classifier.classify_request json_loads self b).
Proof.
  intros Hsame.
  pose proof (scan_request_same json_loads a b Hsame) as Hscan.
  split; [exact Hscan|].
  unfold classifier.classify_request.
  rewrite Hscan, !text_features_to_scan, (to_scan_same a b Hsame),
    (length_features_same json_loads a b Hsame).
  destruct (Dict.nonempty (rule_engine.scan_request json_loads b)); [repeat split|].
  destruct (classifier.text_classification self _ _ []) as [threats calls].
  destruct (classifier.length_features json_loads b) as [e|lengths]; [repeat split|].
  destruct (classifier.tampering_classification self _ _ threats) as [threats' calls'].
  repeat split.
Qed.

Lemma only_scanned_parts_count_witness :
  rule_engine.scan_request Json.loads
    {| request.id := None; request.timestamp := None;
       request.origin := Some "10.0.0.7"; request.host := Some "shop.example";
       request.request := Some "/cart"; request.body := None;
       request.method := Some "GET";
       request.headers := [("Referer", "http://x/?q=<script>alert(1)</script>")];
       request.threats := [] |}
  = rule_engine.scan_request Json.loads (with_request "/cart").
Proof.
  apply only_scanned_parts_count.
  - exact always_valid.
  - split; [reflexivity|]. split; [reflexivity|].
    intros header Hin. simpl in Hin.
    destruct Hin as [<-|[<-|[<-|[<-|[]]]]]; reflexivity.
Defined.

Example referer_is_not_scanned :
  rule_engine.scan_request Json.loads
    {| request.id := None; request.timestamp := None;
       request.origin := Some "10.0.0.7"; request.host := Some "shop.example";
       request.request := Some "/cart"; request.body := None;
       request.method := Some "GET";
       request.headers := [("Referer", "http://x/?q=<script>alert(1)</script>")];
       request.threats := [] |}
  = [].
Proof. vm_compute. reflexivity. Qed.
